(** * wifi.py: inventory of WiFi scan records with heuristic rogue-AP scores

    A shallow embedding of [src/wifi.py]: the per-record normaliser (the
    body of the [for row in data] loop), the helper [match_oui], the scorer
    [compute_scores] and the driver that ends in [write_csv].  The input is
    taken as [read_json] returns it, a Python value.

    Python values are dynamically typed, so the embedding works over a small
    universe [pyval] of the values a JSON document can hold, and every
    operation that Python may refuse returns in the error monad [res], with
    the kind of exception the interpreter raises.

    Strings are [string] (one [ascii] per character); the case mappings and
    the classes "whitespace" and "digit" are the ASCII ones, characters
    above 127 are left alone.  Floats are IEEE binary64 values, given by
    [spec_float] with precision 53 and maximal exponent 1024. *)

From Stdlib Require Import ZArith List String Ascii Bool Lia.
From Stdlib Require Import Floats.SpecFloat.
From Stdlib Require Import DecimalString.
Import ListNotations.

Local Open Scope string_scope.
Local Open Scope Z_scope.

(** ** Python values, exceptions and the error monad *)

#[local] Set Warnings "-register-all".

Inductive pyval : Type :=
| PNone
| PBool (b : bool)
| PInt (z : Z)
| PFloat (f : spec_float)
| PStr (s : string)
| PList (l : list pyval)
| PDict (d : list (string * pyval)).

(** A [dict] keeps its keys in insertion order (the order matters for
    [ie_keys] and for [scores.values()]); it is an association list whose
    first binding of a key is the one seen. *)
Definition dict (V : Type) : Type := list (string * V).

Inductive exn : Type :=
| KeyError | TypeError | AttributeError | ValueError | IndexError
| OverflowError.

Inductive res (A : Type) : Type :=
| Ok (a : A)
| Raise (e : exn).
Arguments Ok {A} a.
Arguments Raise {A} e.

Definition bind {A B : Type} (m : res A) (k : A -> res B) : res B :=
  match m with
  | Ok a => k a
  | Raise e => Raise e
  end.

Notation "x <- m ;; k" := (bind m (fun x => k))
  (at level 61, m at next level, right associativity).

Fixpoint mapM {A B : Type} (f : A -> res B) (l : list A) : res (list B) :=
  match l with
  | [] => Ok []
  | a :: r => b <- f a ;; bs <- mapM f r ;; Ok (b :: bs)
  end.

Definition is_ok {A : Type} (m : res A) : bool :=
  match m with Ok _ => true | Raise _ => false end.

(** ** Dictionaries *)

Section Dict.
Context {V : Type}.

Fixpoint lookup (k : string) (d : dict V) : option V :=
  match d with
  | [] => None
  | (k', v) :: r => if String.eqb k k' then Some v else lookup k r
  end.

Definition has_key (k : string) (d : dict V) : bool :=
  match lookup k d with Some _ => true | None => false end.

(** [d[k] = v]: overwrite in place, or append a new key. *)
Fixpoint dict_set (k : string) (v : V) (d : dict V) : dict V :=
  match d with
  | [] => [(k, v)]
  | (k', v') :: r =>
      if String.eqb k k' then (k', v) :: r else (k', v') :: dict_set k v r
  end.

Definition keys (d : dict V) : list string := map fst d.
Definition values (d : dict V) : list V := map snd d.

(** [d[k]] *)
Definition getitem (d : dict V) (k : string) : res V :=
  match lookup k d with
  | Some v => Ok v
  | None => Raise KeyError
  end.

(** [d.get(k, dflt)] *)
Definition get_default (d : dict V) (k : string) (dflt : V) : V :=
  match lookup k d with
  | Some v => v
  | None => dflt
  end.
End Dict.

(** ** Strings *)

Definition is_upper (c : ascii) : bool :=
  let n := N_of_ascii c in (N.leb 65 n && N.leb n 90)%bool.

Definition is_lower (c : ascii) : bool :=
  let n := N_of_ascii c in (N.leb 97 n && N.leb n 122)%bool.

Definition lower_char (c : ascii) : ascii :=
  if is_upper c then ascii_of_N (N_of_ascii c + 32) else c.

Definition upper_char (c : ascii) : ascii :=
  if is_lower c then ascii_of_N (N_of_ascii c - 32) else c.

Fixpoint str_map (f : ascii -> ascii) (s : string) : string :=
  match s with
  | EmptyString => EmptyString
  | String c r => String (f c) (str_map f r)
  end.

(** [s.lower()] and [s.upper()] *)
Definition lower (s : string) : string := str_map lower_char s.
Definition upper (s : string) : string := str_map upper_char s.

(** [s.startswith(p)] *)
Definition startswith (s p : string) : bool := String.prefix p s.

(** [needle in hay] on two strings *)
Fixpoint contains (needle hay : string) : bool :=
  if String.prefix needle hay then true
  else match hay with
       | EmptyString => false
       | String _ r => contains needle r
       end.

(** The characters [str.isspace] accepts below 128. *)
Definition is_space (c : ascii) : bool :=
  let n := N_of_ascii c in
  ((N.leb 9 n && N.leb n 13) || (N.leb 28 n && N.leb n 32))%bool.

Fixpoint lstrip (s : string) : string :=
  match s with
  | EmptyString => EmptyString
  | String c r => if is_space c then lstrip r else s
  end.

Fixpoint rstrip (s : string) : string :=
  match s with
  | EmptyString => EmptyString
  | String c r =>
      match rstrip r with
      | EmptyString => if is_space c then EmptyString else String c EmptyString
      | r' => String c r'
      end
  end.

(** [s.strip()] *)
Definition strip (s : string) : string := rstrip (lstrip s).

(** [s[:n]] *)
Fixpoint str_take (n : nat) (s : string) : string :=
  match n, s with
  | S n', String c r => String c (str_take n' r)
  | _, _ => EmptyString
  end.

Definition is_digit (c : ascii) : bool :=
  let n := N_of_ascii c in (N.leb 48 n && N.leb n 57)%bool.

Fixpoint take_digits (s : string) : string :=
  match s with
  | String c r => if is_digit c then String c (take_digits r) else EmptyString
  | EmptyString => EmptyString
  end.

(** [re.search(r'(\d+)', s)]: the leftmost, longest run of digits. *)
Fixpoint search_digits (s : string) : option string :=
  match s with
  | EmptyString => None
  | String c r => if is_digit c then Some (take_digits s) else search_digits r
  end.

(** [int(ds)] on a string of digits (the interpreter's limit on the number
    of digits it converts is left out). *)
Definition int_of_digits (ds : string) : Z :=
  fold_left (fun acc c => 10 * acc + (Z.of_N (N_of_ascii c) - 48))
            (list_ascii_of_string ds) 0.

Definition chars (s : string) : list string :=
  map (fun c => String c EmptyString) (list_ascii_of_string s).

Definition join (sep : string) (l : list string) : string :=
  match l with
  | [] => EmptyString
  | x :: r => fold_left (fun acc y => acc ++ sep ++ y)%string r x
  end.

(** [str(z)] on an [int]. *)
Definition str_of_Z (z : Z) : string := NilZero.string_of_int (Z.to_int z).

(** ** Floats *)

Definition nan : spec_float := S754_nan.

(** The binary64 value nearest to an integer (ties to even). *)
Definition float_of_Z (z : Z) : spec_float := binary_normalize 53 1024 z 0 false.

(** The binary64 value nearest to the decimal [n / 10^k], for [n] and
    [10^k] below [2^53]: both are then exact and the division rounds once. *)
Definition float_of_decimal (n : Z) (k : Z) : spec_float :=
  SFdiv 53 1024 (float_of_Z n) (float_of_Z (10 ^ k)).

(** Exact comparison of a float with an integer, as Python compares a
    [float] with an [int]. *)
Definition SFcompare_Z (f : spec_float) (z : Z) : option comparison :=
  match f with
  | S754_nan => None
  | S754_infinity s => Some (if s then Lt else Gt)
  | S754_zero _ => Some (0 ?= z)
  | S754_finite s m e =>
      let v := if s then Zneg m else Zpos m in
      Some (if 0 <=? e then (v * 2 ^ e ?= z) else (v ?= z * 2 ^ (- e)))
  end.

(** Numbers as the scorer handles them: [int] or [float]. *)
Inductive num : Type :=
| NInt (z : Z)
| NFloat (f : spec_float).

Definition pyval_of_num (n : num) : pyval :=
  match n with
  | NInt z => PInt z
  | NFloat f => PFloat f
  end.

(** [a < b] *)
Definition num_lt (a b : num) : bool :=
  match a, b with
  | NInt x, NInt y => x <? y
  | NFloat x, NFloat y => SFltb x y
  | NFloat x, NInt y =>
      match SFcompare_Z x y with Some Lt => true | _ => false end
  | NInt x, NFloat y =>
      match SFcompare_Z y x with Some Gt => true | _ => false end
  end.

(** [a <= b] *)
Definition num_le (a b : num) : bool :=
  match a, b with
  | NInt x, NInt y => x <=? y
  | NFloat x, NFloat y => SFleb x y
  | NFloat x, NInt y =>
      match SFcompare_Z x y with Some (Lt | Eq) => true | _ => false end
  | NInt x, NFloat y =>
      match SFcompare_Z y x with Some (Gt | Eq) => true | _ => false end
  end.

(** [min(a, b)]: the first argument, unless the second is smaller. *)
Definition py_min (a b : num) : num := if num_lt b a then b else a.

(** [max(iterable)]: the first item, replaced by each later item that is
    greater than the running maximum. *)
Definition py_max (l : list num) : res num :=
  match l with
  | [] => Raise ValueError
  | x :: r => Ok (fold_left (fun m i => if num_lt m i then i else m) r x)
  end.

(** [int(f)] on a float: the value cut towards zero. *)
Definition int_of_float (f : spec_float) : res Z :=
  match f with
  | S754_nan => Raise ValueError
  | S754_infinity _ => Raise OverflowError
  | S754_zero _ => Ok 0
  | S754_finite s m e =>
      let a := if 0 <=? e then Zpos m * 2 ^ e else Zpos m / 2 ^ (- e) in
      Ok (if s then - a else a)
  end.

Definition two_and_a_half : spec_float := float_of_decimal 25 1.

(** [int(n * 2.5)] as the interpreter computes it on an [int] [n]: [n] is
    converted to a float, multiplied in binary64, and the product is cut. *)
Definition int_times_2_5_float (n : Z) : res Z :=
  match float_of_Z n with
  | S754_infinity _ => Raise OverflowError
  | x => int_of_float (SFmul 53 1024 x two_and_a_half)
  end.

(** [int(n * 2.5)] for a length [n], in integers.  The float computation
    above gives this very value for every [n] below [2^50] (lemma
    [int_times_2_5_float_exact]); no text or list is that long. *)
Definition int_times_2_5 (n : Z) : Z := (5 * n) / 2.

(** ** Built-in operations on Python values *)

(** What the script takes from the interpreter and from pandas and that is
    left abstract here: reading a float out of a string, printing a float and
    quoting a string (inside [str] of a list or dict), the parsing of the
    [date] column and the rendering of the table as CSV text. *)
Class Builtins : Type := {
  parse_float : string -> option spec_float;
  repr_float : spec_float -> string;
  repr_str : string -> string;
  to_datetime : list pyval -> res (list pyval);
  to_csv : list (dict pyval) -> string
}.

Section Python.
Context {B : Builtins}.

(** [repr(v)] *)
Fixpoint py_repr (v : pyval) : string :=
  match v with
  | PNone => "None"
  | PBool true => "True"
  | PBool false => "False"
  | PInt z => str_of_Z z
  | PFloat f => repr_float f
  | PStr s => repr_str s
  | PList l => "[" ++ join ", " (map py_repr l) ++ "]"
  | PDict d =>
      "{" ++ join ", "
               (map (fun kv => repr_str (fst kv) ++ ": " ++ py_repr (snd kv)) d)
          ++ "}"
  end%string.

(** [str(v)] *)
Definition py_str (v : pyval) : string :=
  match v with
  | PStr s => s
  | _ => py_repr v
  end.

(** [len(v)] *)
Definition py_len (v : pyval) : res Z :=
  match v with
  | PStr s => Ok (Z.of_nat (String.length s))
  | PList l => Ok (Z.of_nat (List.length l))
  | PDict d => Ok (Z.of_nat (List.length d))
  | _ => Raise TypeError
  end.

(** [float(v)] *)
Definition py_float (v : pyval) : res spec_float :=
  match v with
  | PFloat f => Ok f
  | PInt z =>
      match float_of_Z z with
      | S754_infinity _ => Raise OverflowError
      | f => Ok f
      end
  | PBool b => Ok (float_of_Z (if b then 1 else 0))
  | PStr s =>
      match parse_float s with
      | Some f => Ok f
      | None => Raise ValueError
      end
  | _ => Raise TypeError
  end.

(** [v.get(k, dflt)]: only a dict has the method. *)
Definition py_get (v : pyval) (k : string) (dflt : pyval) : res pyval :=
  match v with
  | PDict d => Ok (get_default d k dflt)
  | _ => Raise AttributeError
  end.

(** [v[k]] for a string key [k] *)
Definition py_getitem (v : pyval) (k : string) : res pyval :=
  match v with
  | PDict d => getitem d k
  | _ => Raise TypeError
  end.

(** [k in v] for a string key [k] and a dict [v] *)
Definition py_has_key (k : string) (v : pyval) : bool :=
  match v with
  | PDict d => has_key k d
  | _ => false
  end.

(** [list(v.keys())] *)
Definition py_keys (v : pyval) : res pyval :=
  match v with
  | PDict d => Ok (PList (map PStr (keys d)))
  | _ => Raise AttributeError
  end.

(** [v[:n]] *)
Definition py_slice_to (n : nat) (v : pyval) : res pyval :=
  match v with
  | PStr s => Ok (PStr (str_take n s))
  | PList l => Ok (PList (firstn n l))
  | _ => Raise TypeError
  end.

(** [v[0]]; the keys of a dict read from JSON are strings, never [0]. *)
Definition py_index0 (v : pyval) : res pyval :=
  match v with
  | PList (x :: _) => Ok x
  | PList [] => Raise IndexError
  | PStr (String c _) => Ok (PStr (String c EmptyString))
  | PStr EmptyString => Raise IndexError
  | PDict _ => Raise KeyError
  | _ => Raise TypeError
  end.

(** The items a [for] loop over [v] visits. *)
Definition py_iter (v : pyval) : res (list pyval) :=
  match v with
  | PList l => Ok l
  | PStr s => Ok (map PStr (chars s))
  | PDict d => Ok (map PStr (keys d))
  | _ => Raise TypeError
  end.

(** Truth value of [v] in a condition. *)
Definition truthy (v : pyval) : bool :=
  match v with
  | PNone => false
  | PBool b => b
  | PInt z => negb (z =? 0)
  | PFloat (S754_zero _) => false
  | PFloat _ => true
  | PStr EmptyString => false
  | PStr _ => true
  | PList [] => false
  | PList _ => true
  | PDict [] => false
  | PDict _ => true
  end.

(** [-v] *)
Definition py_neg (v : pyval) : res num :=
  match v with
  | PInt z => Ok (NInt (- z))
  | PBool b => Ok (NInt (- (if b then 1 else 0)))
  | PFloat f => Ok (NFloat (SFopp f))
  | _ => Raise TypeError
  end.

(** [v.lower()] *)
Definition py_lower (v : pyval) : res string :=
  match v with
  | PStr s => Ok (lower s)
  | _ => Raise AttributeError
  end.

(** [v.startswith(p)] *)
Definition py_startswith (v : pyval) (p : string) : res bool :=
  match v with
  | PStr s => Ok (startswith s p)
  | _ => Raise AttributeError
  end.

(** [v in l] for a list [l] of strings: [v == s] for some [s] of [l]. *)
Definition py_in_strings (v : pyval) (l : list string) : bool :=
  match v with
  | PStr s => existsb (String.eqb s) l
  | _ => false
  end.

(** ** The normaliser: the body of [for row in data] *)

Definition columns : list string :=
  ["date"; "bssid"; "oui_vendor"; "ssid"; "chan"; "bandwidth";
   "bandwidth_mhz"; "beacon_int"; "rssi_dbm"; "ie_keys"; "rsn_ies";
   "entropy_penalty"].

(** [entropy]: [int(len(bssid) * 2.5)], or [nan] when [len] raises. *)
Definition entropy_of (bssid : pyval) : num :=
  match py_len bssid with
  | Ok n => NInt (int_times_2_5 n)
  | Raise _ => NFloat nan
  end.

Definition ent_penalty_of (bssid : pyval) : num :=
  py_min (entropy_of bssid) (NInt 100).

Definition bw_raw_of (bandwidth : pyval) : string := strip (py_str bandwidth).

Definition bw_mhz_of (bw_raw : string) : pyval :=
  match search_digits bw_raw with
  | Some ds => PInt (int_of_digits ds)
  | None => PNone
  end.

Definition normalize_row (row : pyval) : res (dict pyval) :=
  date_str <- py_get row "timestamp" PNone ;;
  bssid <- py_get row "mac_addr" (PStr "") ;;
  oui <- py_get row "vendor" (PStr "") ;;
  ie_info <- py_get row "ie_info" (PStr "") ;;
  rsn_ies <- py_get ie_info "RSN" (PList []) ;;
  ie_info' <- py_getitem row "ie_info" ;;
  ie_keys <- py_keys ie_info' ;;
  beacon_int <-
    (if py_has_key "beacon_int" row
     then b <- py_getitem row "beacon_int" ;; py_float b
     else Ok nan) ;;
  let ent_penalty := ent_penalty_of bssid in
  bandwidth <- py_get row "bandwidth" (PStr "") ;;
  let bw_raw := bw_raw_of bandwidth in
  let bw_mhz := bw_mhz_of bw_raw in
  bssid8 <- py_slice_to 8 bssid ;;
  ssid <- py_getitem row "ssid" ;;
  chan <- py_get row "channel" (PStr "") ;;
  rssis <- py_get row "rssis" (PDict []) ;;
  all <- py_get rssis "all" (PList [PFloat nan]) ;;
  first <- py_index0 all ;;
  rssi_dbm <- py_float first ;;
  Ok [("date", date_str);
      ("bssid", bssid8);
      ("oui_vendor", oui);
      ("ssid", ssid);
      ("chan", chan);
      ("bandwidth", PStr bw_raw);
      ("bandwidth_mhz", bw_mhz);
      ("beacon_int", PFloat beacon_int);
      ("rssi_dbm", PFloat rssi_dbm);
      ("ie_keys", ie_keys);
      ("rsn_ies", PStr (str_take 60 (py_str rsn_ies)));
      ("entropy_penalty", pyval_of_num ent_penalty)].

(** ** The scorer *)

Definition base_vendor : dict string :=
  [("Aironet", "00:04:5A"); ("Ralink", "00:2B:81")].

(** The loop of [match_oui] over the keys of [base_vendor]. *)
Fixpoint match_oui_keys (ks : list string) (ssid : pyval) : res bool :=
  match ks with
  | [] => Ok false
  | key :: r =>
      s <- py_lower ssid ;;
      if contains (lower key) s then Ok true else match_oui_keys r ssid
  end.

Definition match_oui (ssid vendor : pyval) : res bool :=
  match_oui_keys (keys base_vendor) ssid.

Definition base_expected : dict string :=
  [("WPA2", "RSNIE:AuthAlg=CCMP");
   ("WPA3", "RSNIE:AuthAlg=OWE");
   ("WEP", "");
   ("WPA/TKIP", "RSNIE:AuthAlg=TSC")].

Definition expected_ies : list string :=
  fold_left
    (fun acc k => if contains "WEP" (lower k) then (acc ++ ["WEP"])%list
                  else (acc ++ [upper k])%list)
    (keys base_expected) [].

Definition ten : spec_float := float_of_Z 10.

(** The [try] block that sets [timing_ok]; any exception leaves it
    [False]. *)
Definition timing_ok (row : dict pyval) : bool :=
  match (b1 <- getitem row "beacon_int" ;;
         f1 <- py_float b1 ;;
         if SFleb ten f1
         then b2 <- getitem row "beacon_int" ;;
              f2 <- py_float b2 ;;
              Ok (num_le (NFloat f2) (NInt 10000))
         else Ok false) with
  | Ok b => b
  | Raise _ => false
  end.

(** The condition of the multi-channel test, with the short cuts of
    [or]; [row.get] on a row of the table gives [None] for a column the
    table does not have. *)
Definition multi_channel_cond (row : dict pyval) : res bool :=
  bw1 <- getitem row "bandwidth" ;;
  p40 <- py_startswith bw1 "40" ;;
  if p40 then Ok true
  else
    bw2 <- getitem row "bandwidth" ;;
    p80 <- py_startswith bw2 "80" ;;
    if p80 then Ok true
    else Ok (truthy (get_default row "multi_channel" PNone)).

Definition compute_scores (row : dict pyval) : res (dict num) :=
  oui <- getitem row "oui_vendor" ;;
  ssid <- getitem row "ssid" ;;
  vendor_match <- match_oui ssid oui ;;
  ep <- getitem row "entropy_penalty" ;;
  neg_ep <- py_neg ep ;;
  let scores : dict num :=
    [("ouinomismatch", NInt 0);
     ("rsnmismatch", NInt 0);
     ("multi_channel", NInt 0);
     ("timing_anomalie", NInt 0);
     ("entropy_penalty", neg_ep);
     ("total_score", NInt 0)] in
  let scores :=
    if negb vendor_match then dict_set "ouinomismatch" (NInt 3) scores
    else scores in
  rsn_ies <- getitem row "rsn_ies" ;;
  items <- py_iter rsn_ies ;;
  let scores :=
    fold_left
      (fun sc ie_type =>
         if py_in_strings ie_type expected_ies
         then dict_set "rsnmismatch" (NInt 0) sc else sc)
      items scores in
  multi <- multi_channel_cond row ;;
  let scores :=
    if multi then dict_set "multi_channel" (NInt 2) scores else scores in
  let scores :=
    if negb (timing_ok row) then dict_set "timing_anomalie" (NInt 3) scores
    else scores in
  total <- py_max (values scores) ;;
  Ok (dict_set "total_score" total scores).

(** ** The driver *)

(** [pd.DataFrame(rows, columns=columns)]: each row keeps the listed
    columns, in that order; a column a row lacks is filled with [nan]. *)
Definition data_frame (rows : list (dict pyval)) (cols : list string)
  : list (dict pyval) :=
  map (fun r => map (fun c => (c, get_default r c (PFloat nan))) cols) rows.

Definition column (c : string) (df : list (dict pyval)) : list pyval :=
  map (fun r => get_default r c PNone) df.

(** [df[c] = vs] *)
Definition set_column (c : string) (vs : list pyval) (df : list (dict pyval))
  : list (dict pyval) :=
  map (fun rv => dict_set c (snd rv) (fst rv)) (combine df vs).

(** The table the script builds, up to the scoring pass. *)
Definition build_table (data : pyval) : res (list (dict pyval)) :=
  records <- py_iter data ;;
  rows <- mapM normalize_row records ;;
  let df := data_frame rows columns in
  dates <- to_datetime (column "date" df) ;;
  let df := set_column "date" dates df in
  df_scores <- mapM compute_scores df ;;
  Ok df.

(** [write_csv(df, out_path)]: the file is written anew, whatever it
    held. *)
Definition write_csv (df : list (dict pyval)) (out : option string)
  : option string :=
  Some (to_csv df).

(** The whole run on the parsed input [data] (what [read_json] returned);
    [out] is the content of the output file before the run ([None]: no such
    file), and the second component of the result is its content after the
    run. *)
Definition main (data : pyval) (out : option string)
  : res unit * option string :=
  match build_table data with
  | Ok df => (Ok tt, write_csv df out)
  | Raise e => (Raise e, out)
  end.

End Python.

(** ** Notions used in the statements *)


(** Some known vendor token occurs in the lower-cased SSID. *)
Definition vendor_hit (ssid : string) : bool :=
  (contains "aironet" (lower ssid) || contains "ralink" (lower ssid))%bool.

Definition score_table (o m t : Z) (ne tot : num) : dict num :=
  [("ouinomismatch", NInt o);
   ("rsnmismatch", NInt 0);
   ("multi_channel", NInt m);
   ("timing_anomalie", NInt t);
   ("entropy_penalty", ne);
   ("total_score", tot)].

(** The three sub-scores that the scorer sets by a test. *)
Definition oui_score (ssid : string) : Z := if vendor_hit ssid then 0 else 3.
Definition multi_score (multi : bool) : Z := if multi then 2 else 0.
Definition timing_score {B : Builtins} (row : dict pyval) : Z :=
  if timing_ok row then 0 else 3.

(** "Starts with the text [p]". *)
Definition starts_with_text (p s : string) : Prop :=
  exists r, s = (p ++ r)%string.

(** The row carries a [multi_channel] entry whose value counts as true. *)
Definition flag_set (row : dict pyval) : Prop :=
  exists v, lookup "multi_channel" row = Some v /\ truthy v = true.

(** The range test of the scorer on a float, with the comparisons the
    interpreter makes: [f >= 10.000] between floats, [f <= 10000] between a
    float and an integer. *)
Definition in_range (f : spec_float) : bool :=
  (SFleb ten f && num_le (NFloat f) (NInt 10000))%bool.

(** [10 <= m * 2^e <= 10000] for the value of a float, denominators
    cleared. *)
Definition between_10_and_10000 (f : spec_float) : Prop :=
  match f with
  | S754_finite false m e =>
      if 0 <=? e then 10 <= Zpos m * 2 ^ e <= 10000
      else 10 * 2 ^ (- e) <= Zpos m <= 10000 * 2 ^ (- e)
  | _ => False
  end.

(** The floats nearest to the decimals of the boundary cases. *)
Definition f_10_000 : spec_float := float_of_decimal 10000 3.
Definition f_9_999 : spec_float := float_of_decimal 9999 3.
Definition f_10000 : spec_float := float_of_Z 10000.
Definition f_10000_001 : spec_float := float_of_decimal 10000001 3.

(** Two rows with the same columns that agree on every column but [k]. *)
Definition agree_except (k : string) (r1 r2 : dict pyval) : Prop :=
  keys r1 = keys r2 /\
  forall k', k' <> k -> lookup k' r1 = lookup k' r2.

(** The entropy penalty as a function of the displayed (cut) bssid:
    [min(int(len(bssid[:8]) * 2.5), 100)]. *)
Definition entropy_of_displayed_bssid {B : Builtins} (row : dict pyval) : Prop :=
  exists b n,
    lookup "bssid" row = Some b /\ py_len b = Ok n /\
    lookup "entropy_penalty" row = Some (PInt (Z.min (int_times_2_5 n) 100)).

(** ** Concrete inputs *)

(** An instance to run the definitions on concrete records.  It reads no
    float out of a string, prints every float and every quoted string by a
    fixed text, keeps the dates as they are and writes only the header
    line; the inputs below exercise none of these. *)
Definition eval_builtins : Builtins :=
  {| parse_float := fun _ => None;
     repr_float := fun _ => "nan";
     repr_str := fun s => ("'" ++ s ++ "'")%string;
     to_datetime := fun dates => Ok dates;
     to_csv := fun _ => join "," columns |}.

(** The record of the end-to-end scenario. *)
Definition example_record : pyval :=
  PDict [("timestamp", PStr "2024-01-01T00:00:00");
         ("mac_addr", PStr "AA:BB:CC:DD:EE:FF");
         ("vendor", PStr "Acme");
         ("ssid", PStr "FreeWifi");
         ("channel", PInt 6);
         ("bandwidth", PStr "HT/20");
         ("beacon_int", PInt 100);
         ("rssis", PDict [("all", PList [PInt (-40)])]);
         ("ie_info", PDict [("RSN", PList [])])].

Definition example_row : dict pyval :=
  [("date", PStr "2024-01-01T00:00:00");
   ("bssid", PStr "AA:BB:CC");
   ("oui_vendor", PStr "Acme");
   ("ssid", PStr "FreeWifi");
   ("chan", PInt 6);
   ("bandwidth", PStr "HT/20");
   ("bandwidth_mhz", PInt 20);
   ("beacon_int", PFloat (float_of_Z 100));
   ("rssi_dbm", PFloat (float_of_Z (-40)));
   ("ie_keys", PList [PStr "RSN"]);
   ("rsn_ies", PStr "[]");
   ("entropy_penalty", PInt 42)].

Definition example_scores : dict num := score_table 3 0 0 (NInt (-42)) (NInt 3).

(** A record with only the two required fields, and one more field. *)
Definition minimal_record (extra : list (string * pyval)) : pyval :=
  PDict ([("ssid", PStr "FreeWifi"); ("ie_info", PDict [("RSN", PList [])])]
           ++ extra)%list.

(** The timing sub-score of the example row with its [beacon_int]
    replaced by [v]. *)
Definition timing_of {B : Builtins} (v : pyval) : option num :=
  match compute_scores (dict_set "beacon_int" v example_row) with
  | Ok s => lookup "timing_anomalie" s
  | Raise _ => None
  end.


(** A row whose [rsn_ies] is a list that names an expected suite. *)
Definition row_with_rsn_list : dict pyval :=
  dict_set "rsn_ies" (PList [PStr "WPA2"; PStr "bogus"]) example_row.



(** A row whose [beacon_int] is the float just below 10. *)
Definition row_below_range : dict pyval :=
  dict_set "beacon_int" (PFloat f_9_999) example_row.

Definition scores_below_range : dict num :=
  score_table 3 0 3 (NInt (-42)) (NInt 3).



(** The example row with another vendor. *)
Definition row_with_other_vendor : dict pyval :=
  dict_set "oui_vendor" (PStr "Ralink Technology") example_row.

(** An input whose second record has no [ssid]. *)
Definition data_with_missing_ssid : pyval :=
  PList [example_record;
         PDict [("mac_addr", PStr "AA:BB:CC:DD:EE:00");
                ("ie_info", PDict [("RSN", PList [])])]].

(** ** [read_json]: the clean-up of the text when [json5] is missing *)

Definition newline : ascii := "010"%char.

(** [re.sub(r'//.*', '', txt)]: every [//] is deleted together with what
    follows it on its line; the dot stops at a line feed, which is kept.
    [in_comment] says that the scan is inside such a match. *)
Fixpoint strip_from (in_comment : bool) (s : string) : string :=
  match s with
  | EmptyString => EmptyString
  | String c r =>
      if in_comment then
        if Ascii.eqb c newline then String c (strip_from false r)
        else strip_from true r
      else if (Ascii.eqb c "/" && String.prefix "/" r)%bool then strip_from true r
      else String c (strip_from false r)
  end.

Definition strip_line_comments (txt : string) : string := strip_from false txt.

Definition is_closer (c : ascii) : bool :=
  (Ascii.eqb c "}" || Ascii.eqb c "]")%bool.

(** The text goes on with [\s*[}\]]]. *)
Fixpoint closes (s : string) : bool :=
  match s with
  | EmptyString => false
  | String c r => if is_space c then closes r else is_closer c
  end.

(** [re.sub(r',(\s*[}\]])', r'\1', txt)]: a comma that is followed, after
    any white space, by a closing brace or bracket is deleted; the white
    space and the closer stay. *)
Fixpoint strip_trailing_commas (s : string) : string :=
  match s with
  | EmptyString => EmptyString
  | String c r =>
      if (Ascii.eqb c "," && closes r)%bool then strip_trailing_commas r
      else String c (strip_trailing_commas r)
  end.

Section ReadJson.
(** The two parsers are taken as they come: [json5.load] when the module
    can be imported, and [json.loads]. *)
Variable json5_load : option (string -> res pyval).
Variable json_loads : string -> res pyval.

End ReadJson.

(** ** More notions used in the statements *)

(** Every character of [s] satisfies [p]. *)
Fixpoint str_forall (p : ascii -> bool) (s : string) : bool :=
  match s with
  | EmptyString => true
  | String c r => (p c && str_forall p r)%bool
  end.

(** The text [s] without the characters that satisfy [p]. *)
Fixpoint str_remove (p : ascii -> bool) (s : string) : string :=
  match s with
  | EmptyString => EmptyString
  | String c r => if p c then str_remove p r else String c (str_remove p r)
  end.

(** The number of line feeds of a text. *)
Definition line_breaks (s : string) : nat :=
  String.length (str_remove (fun c => negb (Ascii.eqb c newline)) s).



(** Somewhere in [t] a comma is followed, after any white space, by a
    closing brace or bracket. *)
Definition has_trailing_comma (t : string) : Prop :=
  exists a w c b,
    t = (a ++ "," ++ w ++ String c b)%string /\
    str_forall is_space w = true /\ is_closer c = true.

(** Two dicts give the same answer for every key of [ks]. *)
Definition agree_on {V : Type} (ks : list string) (d1 d2 : dict V) : Prop :=
  forall k, In k ks -> lookup k d1 = lookup k d2.

(** The fields of a record that the normaliser reads. *)
Definition fields_read : list string :=
  ["timestamp"; "mac_addr"; "vendor"; "ie_info"; "beacon_int"; "bandwidth";
   "ssid"; "channel"; "rssis"].

(** The keys of the table of scores, in their order. *)
Definition score_keys : list string :=
  ["ouinomismatch"; "rsnmismatch"; "multi_channel"; "timing_anomalie";
   "entropy_penalty"; "total_score"].

(** The fields of a record that may be missing. *)
Definition optional_fields : list string :=
  ["timestamp"; "mac_addr"; "vendor"; "beacon_int"; "bandwidth"; "channel";
   "rssis"].

(** The row of a record that has its [ssid] and its [ie_info] and none of
    the optional fields. *)
Definition default_row {B : Builtins} (ssid : pyval) (ie : dict pyval)
  : dict pyval :=
  [("date", PNone);
   ("bssid", PStr "");
   ("oui_vendor", PStr "");
   ("ssid", ssid);
   ("chan", PStr "");
   ("bandwidth", PStr "");
   ("bandwidth_mhz", PNone);
   ("beacon_int", PFloat nan);
   ("rssi_dbm", PFloat nan);
   ("ie_keys", PList (map PStr (keys ie)));
   ("rsn_ies", PStr (str_take 60 (py_str (get_default ie "RSN" (PList [])))));
   ("entropy_penalty", PInt 0)].

(** The loop that fills [expected_ies], for any keys in the place of those
    of [base_expected]. *)
Definition expected_ies_for (ks : list string) : list string :=
  fold_left
    (fun acc k => if contains "WEP" (lower k) then (acc ++ ["WEP"])%list
                  else (acc ++ [upper k])%list)
    ks [].

(** [pd.to_datetime] gives one date per item of the column. *)
Definition to_datetime_keeps_length {B : Builtins} : Prop :=
  forall (l dates : list pyval),
    to_datetime l = Ok dates -> List.length dates = List.length l.

(** ** More concrete inputs *)

(** The fields of the example record. *)
Definition example_fields : dict pyval :=
  [("timestamp", PStr "2024-01-01T00:00:00");
   ("mac_addr", PStr "AA:BB:CC:DD:EE:FF");
   ("vendor", PStr "Acme");
   ("ssid", PStr "FreeWifi");
   ("channel", PInt 6);
   ("bandwidth", PStr "HT/20");
   ("beacon_int", PInt 100);
   ("rssis", PDict [("all", PList [PInt (-40)])]);
   ("ie_info", PDict [("RSN", PList [])])].

(** The example record with a [multi_channel] flag and a field that the
    script does not know. *)
Definition example_fields_with_flag : dict pyval :=
  (example_fields ++ [("multi_channel", PBool true); ("note", PStr "lab")])%list.

(** A record with the two required fields only. *)
Definition bare_fields : dict pyval :=
  [("ssid", PStr "FreeWifi"); ("ie_info", PDict [("RSN", PList [])])].

(** A record whose [ssid] is a number. *)
Definition numeric_ssid_fields : dict pyval :=
  [("ssid", PInt 5); ("ie_info", PDict [])].

(** ** Facts about strings *)

Lemma prefix_app (p s : string) :
  String.prefix p s = true <-> exists r, s = (p ++ r)%string.
Proof.
  revert s; induction p as [|c p IH]; intros s.
  - destruct s; simpl; (split; [intros _; eexists; reflexivity | reflexivity]).
  - destruct s as [|c' s]; simpl.
    + split; [discriminate | intros [r Hr]; discriminate].
    + destruct (ascii_dec c c') as [->|Hne].
      * rewrite IH. split; intros [r Hr]; exists r.
        -- now rewrite Hr.
        -- now injection Hr.
      * split; [discriminate | intros [r Hr]; injection Hr; intros; congruence].
Qed.





(** ** The shape of what [compute_scores] returns *)

Lemma match_oui_str (ssid : string) (vendor : pyval) :
  match_oui (PStr ssid) vendor = Ok (vendor_hit ssid).
Proof.
  unfold match_oui, vendor_hit. cbn [keys base_vendor map fst match_oui_keys].
  cbn [py_lower bind].
  change (lower "Aironet") with "aironet"%string.
  change (lower "Ralink") with "ralink"%string.
  destruct (contains "aironet" (lower ssid)); [reflexivity |].
  destruct (contains "ralink" (lower ssid)); reflexivity.
Qed.

Lemma match_oui_ok (ssid vendor : pyval) (b : bool) :
  match_oui ssid vendor = Ok b ->
  exists t, ssid = PStr t /\ b = vendor_hit t.
Proof.
  destruct ssid; try discriminate.
  rewrite match_oui_str. intros H; injection H as <-. eauto.
Qed.

Lemma expected_ies_eq : expected_ies = ["WPA2"; "WPA3"; "WEP"; "WPA/TKIP"]%string.
Proof. reflexivity. Qed.

(** The loop over [rsn_ies] leaves the table as it found it. *)
Lemma rsn_loop_id (items : list pyval) (o : Z) (ne : num) :
  fold_left
    (fun sc ie_type =>
       if py_in_strings ie_type expected_ies
       then dict_set "rsnmismatch" (NInt 0) sc else sc)
    items (score_table o 0 0 ne (NInt 0))
  = score_table o 0 0 ne (NInt 0).
Proof.
  induction items as [|i items IH]; [reflexivity |].
  cbn [fold_left]. destruct (py_in_strings i expected_ies); exact IH.
Qed.

Section Scorer.
Context {B : Builtins}.

Lemma compute_scores_shape (row : dict pyval) (s : dict num) :
  compute_scores row = Ok s ->
  exists oui ssid ep ne rsn items multi tot,
    lookup "oui_vendor" row = Some oui /\
    lookup "ssid" row = Some (PStr ssid) /\
    lookup "entropy_penalty" row = Some ep /\ py_neg ep = Ok ne /\
    lookup "rsn_ies" row = Some rsn /\ py_iter rsn = Ok items /\
    multi_channel_cond row = Ok multi /\
    py_max [NInt (oui_score ssid); NInt 0; NInt (multi_score multi);
            NInt (timing_score row); ne; NInt 0] = Ok tot /\
    s = score_table (oui_score ssid) (multi_score multi) (timing_score row)
                    ne tot.
Proof.
  unfold compute_scores, getitem.
  destruct (lookup "oui_vendor" row) as [oui|]; [|discriminate].
  destruct (lookup "ssid" row) as [ssid|]; [|discriminate].
  cbn [bind].
  destruct (match_oui ssid oui) as [vm|] eqn:Hm; [|discriminate].
  apply match_oui_ok in Hm as [t [-> ->]].
  destruct (lookup "entropy_penalty" row) as [ep|]; [|discriminate].
  cbn [bind].
  destruct (py_neg ep) as [ne|] eqn:Hne; [|discriminate].
  destruct (lookup "rsn_ies" row) as [rsn|]; [|discriminate].
  cbn [bind].
  destruct (py_iter rsn) as [items|] eqn:Hit; [|discriminate].
  cbn [bind].
  destruct (multi_channel_cond row) as [multi|] eqn:Hmulti; [|discriminate].
  cbn [bind].
  intros H.
  exists oui, t, ep, ne, rsn, items, multi.
  unfold oui_score, multi_score, timing_score.
  replace (if negb (vendor_hit t)
           then dict_set "ouinomismatch" (NInt 3) _ else _)
    with (score_table (if vendor_hit t then 0 else 3) 0 0 ne (NInt 0))
    in H by (destruct (vendor_hit t); reflexivity).
  rewrite rsn_loop_id in H.
  replace (if multi then dict_set "multi_channel" (NInt 2) _ else _)
    with (score_table (if vendor_hit t then 0 else 3)
                      (if multi then 2 else 0) 0 ne (NInt 0))
    in H by (destruct multi; reflexivity).
  replace (if negb (timing_ok row)
           then dict_set "timing_anomalie" (NInt 3) _ else _)
    with (score_table (if vendor_hit t then 0 else 3)
                      (if multi then 2 else 0)
                      (if timing_ok row then 0 else 3) ne (NInt 0))
    in H by (destruct (timing_ok row); reflexivity).
  cbn [score_table values map snd] in H.
  destruct (py_max _) as [tot|] eqn:Hmax; [|discriminate].
  cbn [bind] in H. injection H as <-.
  exists tot. repeat split; auto.
Qed.

End Scorer.

(** ** Facts about the order on numbers *)

Lemma num_lt_int_step (a b : Z) :
  (if num_lt (NInt a) (NInt b) then NInt b else NInt a) = NInt (Z.max a b).
Proof.
  cbn [num_lt]. destruct (a <? b) eqn:H; f_equal.
  - apply Z.ltb_lt in H. lia.
  - apply Z.ltb_ge in H. lia.
Qed.

(** A float above an integer is above every smaller integer. *)
Lemma SFcompare_Z_Gt_mono (f : spec_float) (x y : Z) :
  SFcompare_Z f y = Some Gt -> x <= y -> SFcompare_Z f x = Some Gt.
Proof.
  destruct f as [s|s| |s m e]; unfold SFcompare_Z; try discriminate.
  - intros H Hxy. destruct y; try discriminate.
    destruct x; try lia. reflexivity.
  - tauto.
  - intros H Hxy. injection H as H. f_equal.
    destruct (0 <=? e) eqn:He.
    + apply Z.compare_gt_iff in H. apply Z.compare_gt_iff. lia.
    + apply Z.compare_gt_iff in H. apply Z.compare_gt_iff.
      apply Z.leb_gt in He.
      assert (0 < 2 ^ (- e)) by (apply Z.pow_pos_nonneg; lia).
      nia.
Qed.

Lemma SFltb_irrefl (f : spec_float) : SFltb f f = false.
Proof.
  unfold SFltb. destruct f as [s|s| |s m e]; cbn [SFcompare]; try reflexivity.
  - destruct s; reflexivity.
  - destruct s; rewrite Z.compare_refl, Pos.compare_cont_refl; reflexivity.
Qed.

(** The maximum over the six values of the table is the maximum over the
    five sub-scores: the entry [total_score], still [0] when the maximum is
    taken, never wins over the non-negative sub-scores. *)
Lemma py_max_table (o m t : Z) (ne tot : num) :
  0 <= o -> 0 <= m -> 0 <= t ->
  py_max [NInt o; NInt 0; NInt m; NInt t; ne; NInt 0] = Ok tot ->
  py_max [NInt o; NInt 0; NInt m; NInt t; ne] = Ok tot /\
  In tot [NInt o; NInt 0; NInt m; NInt t; ne] /\
  (forall x, In x [NInt o; NInt 0; NInt m; NInt t; ne] -> num_lt tot x = false) /\
  (forall n, ne = NInt n ->
             tot = NInt (Z.max o (Z.max 0 (Z.max m (Z.max t n))))).
Proof.
  intros Ho Hm Ht. unfold py_max. cbn [fold_left].
  rewrite !num_lt_int_step.
  set (M := Z.max (Z.max (Z.max o 0) m) t).
  assert (HM : 0 <= M /\ o <= M /\ m <= M /\ t <= M) by (unfold M; lia).
  assert (HMin : In (NInt M) [NInt o; NInt 0; NInt m; NInt t; ne]).
  { unfold M. cbn [In].
    destruct (Z.max_spec (Z.max (Z.max o 0) m) t) as [[_ ->]|[_ ->]]; auto.
    destruct (Z.max_spec (Z.max o 0) m) as [[_ ->]|[_ ->]]; auto.
    destruct (Z.max_spec o 0) as [[_ ->]|[_ ->]]; auto. }
  destruct ne as [n|f].
  - rewrite !num_lt_int_step. intros H; injection H as <-.
    replace (Z.max (Z.max M n) 0) with (Z.max M n) by lia.
    repeat split.
    + destruct (Z.max_spec M n) as [[_ ->]|[_ ->]]; [cbn [In]; tauto | exact HMin].
    + intros x Hx. cbn [In] in Hx.
      destruct Hx as [<-|[<-|[<-|[<-|[<-|[]]]]]]; cbn [num_lt];
        apply Z.ltb_ge; lia.
    + intros n' Hn. injection Hn as <-. f_equal. unfold M. lia.
  - cbn [num_lt].
    destruct (SFcompare_Z f M) as [[| |]|] eqn:Hc.
    1,2,4: cbn [num_lt]; replace (M <? 0) with false
             by (symmetry; apply Z.ltb_ge; lia);
           intros H; injection H as <-; repeat split; auto;
           [ intros x Hx; cbn [In] in Hx;
             destruct Hx as [<-|[<-|[<-|[<-|[<-|[]]]]]]; cbn [num_lt];
             try (apply Z.ltb_ge; lia); rewrite Hc; reflexivity
           | discriminate ].
    cbn [num_lt].
    rewrite (SFcompare_Z_Gt_mono f 0 M Hc) by lia.
    intros H; injection H as <-. repeat split.
    + cbn [In]; tauto.
    + intros x Hx. cbn [In] in Hx.
      destruct Hx as [<-|[<-|[<-|[<-|[<-|[]]]]]]; cbn [num_lt];
        try (rewrite (SFcompare_Z_Gt_mono f _ M Hc) by lia; reflexivity).
      apply SFltb_irrefl.
    + discriminate.
Qed.

(** ** The range test, on the value of the float *)

Lemma digits2_pos_bounds (m : positive) :
  2 ^ (Zpos (digits2_pos m) - 1) <= Zpos m < 2 ^ Zpos (digits2_pos m).
Proof.
  induction m as [m IH|m IH|]; cbn [digits2_pos].
  - rewrite Pos2Z.inj_succ.
    replace (Z.succ (Zpos (digits2_pos m)) - 1) with (Zpos (digits2_pos m)) by lia.
    rewrite Z.pow_succ_r by lia.
    replace (Zpos (digits2_pos m)) with (Z.succ (Zpos (digits2_pos m) - 1)) at 1 by lia.
    rewrite Z.pow_succ_r by lia. lia.
  - rewrite Pos2Z.inj_succ.
    replace (Z.succ (Zpos (digits2_pos m)) - 1) with (Zpos (digits2_pos m)) by lia.
    rewrite Z.pow_succ_r by lia.
    replace (Zpos (digits2_pos m)) with (Z.succ (Zpos (digits2_pos m) - 1)) at 1 by lia.
    rewrite Z.pow_succ_r by lia. lia.
  - cbn. lia.
Qed.

Lemma pow2_ge (a b : Z) : 0 <= a <= b -> 2 ^ a <= 2 ^ b.
Proof. intros H. apply Z.pow_le_mono_r; lia. Qed.

(** On the floats of binary64, the test of the scorer says what it is meant
    to say of the value. *)
Lemma in_range_exact (f : spec_float) :
  valid_binary 53 1024 f = true ->
  in_range f = true <-> between_10_and_10000 f.
Proof.
  unfold in_range, ten.
  change (float_of_Z 10) with (S754_finite false 5629499534213120 (-49)).
  destruct f as [s|s| |s m e]; cbn [valid_binary between_10_and_10000].
  - intros _. split; [discriminate | tauto].
  - intros _. destruct s; (split; [discriminate | tauto]).
  - intros _. split; [discriminate | tauto].
  - intros Hv. destruct s; [split; [discriminate | tauto] |].
    unfold bounded, canonical_mantissa, fexp, emin in Hv.
    apply andb_true_iff in Hv as [Hc _]. apply Z.eqb_eq in Hc.
    pose proof (digits2_pos_bounds m) as Hd.
    set (d := Zpos (digits2_pos m)) in *.
    change (Z.max (d + e - 53) (3 - 1024 - 53) = e) in Hc.
    unfold SFleb, num_le, SFcompare, SFcompare_Z.
    rewrite andb_true_iff.
    assert (Hup :
      (match (if 0 <=? e then Zpos m * 2 ^ e ?= 10000
              else Zpos m ?= 10000 * 2 ^ (- e)) with
       | Gt => false | _ => true end = true)
      <-> (if 0 <=? e then Zpos m * 2 ^ e <= 10000
           else Zpos m <= 10000 * 2 ^ (- e))).
    { destruct (0 <=? e);
        [ destruct (Z.compare_spec (Zpos m * 2 ^ e) 10000)
        | destruct (Z.compare_spec (Zpos m) (10000 * 2 ^ (- e))) ];
        split; intros; try reflexivity; try discriminate; lia. }
    assert (Hlow :
      (match (match -49 ?= e with
              | Eq => Pos.compare_cont Eq 5629499534213120 m
              | Lt => Lt | Gt => Gt end) with
       | Gt => false | _ => true end = true)
      <-> (if 0 <=? e then 10 <= Zpos m * 2 ^ e
           else 10 * 2 ^ (- e) <= Zpos m)).
    { destruct (-49 ?= e) eqn:He.
      - apply Z.compare_eq_iff in He. subst e.
        change (0 <=? -49) with false. change (2 ^ (- -49)) with 562949953421312.
        change (Pos.compare_cont Eq 5629499534213120 m)
          with (Zpos 5629499534213120 ?= Zpos m).
        destruct (Z.compare_spec (Zpos 5629499534213120) (Zpos m));
          split; intros; try reflexivity; try discriminate; lia.
      - change (-49 < e) in He.
        assert (d = 53) by lia.
        assert (H52 : 2 ^ 52 <= Zpos m) by (replace 52 with (d - 1) by lia; lia).
        change (2 ^ 52) with 4503599627370496 in H52.
        split; [intros _ | reflexivity].
        destruct (0 <=? e) eqn:H0.
        + apply Z.leb_le in H0.
          assert (1 <= 2 ^ e) by (change 1 with (2 ^ 0); apply pow2_ge; lia).
          nia.
        + apply Z.leb_gt in H0.
          assert (2 ^ (- e) <= 2 ^ 48) by (apply pow2_ge; lia).
          change (2 ^ 48) with 281474976710656 in *. lia.
      - apply Z.compare_gt_iff in He.
        split; [discriminate |].
        replace (0 <=? e) with false by (symmetry; apply Z.leb_gt; lia).
        assert (d <= 53) by lia.
        assert (2 ^ d <= 2 ^ 53) by (apply pow2_ge; lia).
        assert (2 ^ 50 <= 2 ^ (- e)) by (apply pow2_ge; lia).
        change (2 ^ 53) with 9007199254740992 in *.
        change (2 ^ 50) with 1125899906842624 in *.
        lia. }
    rewrite Hup, Hlow. destruct (0 <=? e); tauto.
Qed.

(** ** The error monad *)

Lemma bind_ok {A C : Type} (m : res A) (k : A -> res C) (c : C) :
  bind m k = Ok c -> exists a, m = Ok a /\ k a = Ok c.
Proof. destruct m as [a|e]; [eauto | discriminate]. Qed.

(** Splits a successful [bind] in hypothesis [H] into its two steps. *)
Tactic Notation "bind_inv" hyp(H) ident(x) ident(Hx) :=
  apply bind_ok in H; destruct H as [x [Hx H]].

Lemma mapM_ok_in {A C : Type} (f : A -> res C) (l : list A) (cs : list C) :
  mapM f l = Ok cs -> forall a, In a l -> exists c, f a = Ok c /\ In c cs.
Proof.
  revert cs; induction l as [|x l IH]; intros cs H a Ha; [destruct Ha |].
  cbn [mapM] in H.
  bind_inv H c Hc. bind_inv H cs' Hcs. injection H as <-.
  destruct Ha as [<-|Ha].
  - exists c. split; [exact Hc | now left].
  - destruct (IH _ Hcs _ Ha) as [c' [Hc' Hin]]. exists c'. split; [exact Hc' | now right].
Qed.

Lemma mapM_raise {A C : Type} (f : A -> res C) (l : list A) (a : A) :
  In a l -> is_ok (f a) = false -> exists e, mapM f l = Raise e.
Proof.
  intros Ha Hf. destruct (mapM f l) as [cs|e] eqn:H; [| eauto].
  destruct (mapM_ok_in f l cs H a Ha) as [c [Hc _]].
  rewrite Hc in Hf. discriminate.
Qed.

(** ** Dictionaries *)

Lemma lookup_none_keys {V : Type} (k : string) (d : dict V) :
  lookup k d = None <-> ~ In k (keys d).
Proof.
  induction d as [|[k' v] d IH]; cbn [lookup keys map fst In].
  - tauto.
  - destruct (String.eqb_spec k k') as [->|Hne].
    + split; [discriminate | tauto].
    + unfold keys in IH. rewrite IH. split; [intros H [E|E]; [congruence | tauto] | tauto].
Qed.

Lemma lookup_dict_set_other {V : Type} (k k0 : string) (v : V) (d : dict V) :
  k0 <> k -> lookup k0 (dict_set k v d) = lookup k0 d.
Proof.
  intros Hne. induction d as [|[k' v'] d IH]; cbn [dict_set lookup].
  - destruct (String.eqb_spec k0 k); [congruence | reflexivity].
  - destruct (String.eqb_spec k k') as [->|E]; cbn [lookup].
    + destruct (String.eqb_spec k0 k'); [congruence | reflexivity].
    + now rewrite IH.
Qed.

Lemma keys_dict_set {V : Type} (k : string) (v : V) (d : dict V) :
  has_key k d = true -> keys (dict_set k v d) = keys d.
Proof.
  unfold has_key, keys.
  induction d as [|[k' v'] d IH]; cbn [dict_set lookup map fst]; [discriminate |].
  destruct (String.eqb k k'); cbn [map fst]; [reflexivity |].
  intros H. now rewrite IH.
Qed.

Lemma agree_except_dict_set (k : string) (v : pyval) (d : dict pyval) :
  has_key k d = true -> agree_except k d (dict_set k v d).
Proof.
  intros H. split.
  - symmetry. now apply keys_dict_set.
  - intros k' Hne. symmetry. now apply lookup_dict_set_other.
Qed.

(** ** The shape of what [normalize_row] returns *)

Section Normaliser.
Context {B : Builtins}.

Lemma normalize_row_shape (raw : pyval) (row : dict pyval) :
  normalize_row raw = Ok row ->
  exists d ie beacon bssid8 ssid all first rssi,
    raw = PDict d /\
    lookup "ie_info" d = Some (PDict ie) /\
    (if has_key "beacon_int" d
     then b <- getitem d "beacon_int" ;; py_float b
     else Ok nan) = Ok beacon /\
    py_slice_to 8 (get_default d "mac_addr" (PStr "")) = Ok bssid8 /\
    lookup "ssid" d = Some ssid /\
    py_get (get_default d "rssis" (PDict [])) "all" (PList [PFloat nan])
      = Ok all /\
    py_index0 all = Ok first /\
    py_float first = Ok rssi /\
    row =
      [("date", get_default d "timestamp" PNone);
       ("bssid", bssid8);
       ("oui_vendor", get_default d "vendor" (PStr ""));
       ("ssid", ssid);
       ("chan", get_default d "channel" (PStr ""));
       ("bandwidth", PStr (bw_raw_of (get_default d "bandwidth" (PStr ""))));
       ("bandwidth_mhz",
         bw_mhz_of (bw_raw_of (get_default d "bandwidth" (PStr ""))));
       ("beacon_int", PFloat beacon);
       ("rssi_dbm", PFloat rssi);
       ("ie_keys", PList (map PStr (keys ie)));
       ("rsn_ies", PStr (str_take 60 (py_str (get_default ie "RSN" (PList [])))));
       ("entropy_penalty",
         pyval_of_num (ent_penalty_of (get_default d "mac_addr" (PStr ""))))].
Proof.
  unfold normalize_row. intros H.
  destruct raw as [| | | | | |d]; try discriminate.
  cbn [py_get bind py_getitem py_has_key] in H.
  bind_inv H rsn Hrsn.
  unfold get_default in Hrsn at 1.
  destruct (lookup "ie_info" d) as [ie|] eqn:Hie; [|discriminate].
  destruct ie as [| | | | | |ie]; try discriminate.
  cbn [py_get] in Hrsn. injection Hrsn as <-.
  unfold getitem in H at 1. rewrite Hie in H. cbn [bind py_keys] in H.
  bind_inv H beacon Hbeacon.
  bind_inv H bssid8 Hb8.
  bind_inv H ssid Hssid.
  bind_inv H all Hall.
  bind_inv H first Hfirst.
  bind_inv H rssi Hrssi.
  injection H as <-.
  unfold getitem in Hssid.
  destruct (lookup "ssid" d) as [ssid'|] eqn:Hs; [|discriminate].
  injection Hssid as ->.
  exists d, ie, beacon, bssid8, ssid, all, first, rssi.
  repeat split; auto.
Qed.

Lemma normalize_row_needs_ssid (raw : pyval) :
  py_has_key "ssid" raw = false -> is_ok (normalize_row raw) = false.
Proof.
  intros H. destruct (normalize_row raw) as [row|e] eqn:Hn; [|reflexivity].
  apply normalize_row_shape in Hn
    as (d & ie & beacon & b8 & ssid & all & first & rssi & -> & _ & _ & _ & Hs & _).
  cbn [py_has_key] in H. unfold has_key in H. now rewrite Hs in H.
Qed.

End Normaliser.

(** The floats of the boundary cases, bit for bit: 10.0 is
    [0x1.4p+3], 9.999 is [0x1.3ff7ced916873p+3], 10000.0 is [0x1.388p+13]
    and 10000.001 is [0x1.3880020c49ba6p+13]. *)
Lemma boundary_floats :
  f_10_000 = S754_finite false 0x14000000000000 (-49) /\
  f_9_999 = S754_finite false 0x13ff7ced916873 (-49) /\
  f_10000 = S754_finite false 0x13880000000000 (-39) /\
  f_10000_001 = S754_finite false 0x13880020c49ba6 (-39) /\
  ten = f_10_000.
Proof. repeat split. Qed.

(** ** The product [n * 2.5] is exact in binary64 *)

Lemma digits2_pos_unique (p : positive) (D : Z) :
  2 ^ (D - 1) <= Zpos p < 2 ^ D -> Zpos (digits2_pos p) = D.
Proof.
  intros H. pose proof (digits2_pos_bounds p) as Hb.
  set (d := Zpos (digits2_pos p)) in *.
  assert (0 < d) by (unfold d; lia).
  assert (HD : 0 < D).
  { destruct (Z.ltb_spec 0 D); [assumption | exfalso].
    destruct (Z.eq_dec D 0) as [->|].
    - change (2 ^ 0) with 1 in H. lia.
    - rewrite (Z.pow_neg_r 2 D) in H by lia. lia. }
  destruct (Z.lt_trichotomy d D) as [Hlt|[Heq|Hgt]]; [| exact Heq |].
  - assert (2 ^ d <= 2 ^ (D - 1)) by (apply pow2_ge; lia). lia.
  - assert (2 ^ D <= 2 ^ (d - 1)) by (apply pow2_ge; lia). lia.
Qed.

Lemma digits2_pos_shift (p q : positive) (k : Z) :
  0 <= k -> Zpos q = Zpos p * 2 ^ k ->
  Zpos (digits2_pos q) = Zpos (digits2_pos p) + k.
Proof.
  intros Hk Hq. apply digits2_pos_unique.
  pose proof (digits2_pos_bounds p) as Hb.
  set (d := Zpos (digits2_pos p)) in *.
  assert (0 < d) by (unfold d; lia).
  replace (d + k - 1) with ((d - 1) + k) by lia.
  rewrite !Z.pow_add_r by lia. rewrite Hq.
  assert (0 < 2 ^ k) by (apply Z.pow_pos_nonneg; lia).
  nia.
Qed.

(** Shifting out [p] zero bits loses nothing. *)
Lemma iter_shr_1_exact (p : positive) (m : Z) :
  0 < m ->
  iter_pos shr_1 p {| shr_m := m * 2 ^ Zpos p; shr_r := false; shr_s := false |}
  = {| shr_m := m; shr_r := false; shr_s := false |}.
Proof.
  assert (step : forall m, 0 < m ->
            shr_1 {| shr_m := m * 2; shr_r := false; shr_s := false |}
            = {| shr_m := m; shr_r := false; shr_s := false |}).
  { intros m' Hm'. destruct m' as [|q|q]; try lia.
    replace (Zpos q * 2) with (Zpos q~0) by lia. reflexivity. }
  revert m; induction p as [p IH|p IH|]; intros m Hm; cbn [iter_pos].
  - assert (0 < 2 ^ Zpos p) by (apply Z.pow_pos_nonneg; lia).
    replace (m * 2 ^ Zpos p~1) with ((m * 2 ^ Zpos p * 2 ^ Zpos p) * 2).
    + rewrite step by nia. rewrite IH by nia. apply IH; assumption.
    + replace (Zpos p~1) with (Zpos p + Zpos p + 1) by lia.
      rewrite !Z.pow_add_r by lia. change (2 ^ 1) with 2. ring.
  - assert (0 < 2 ^ Zpos p) by (apply Z.pow_pos_nonneg; lia).
    replace (m * 2 ^ Zpos p~0) with (m * 2 ^ Zpos p * 2 ^ Zpos p).
    + rewrite IH by nia. apply IH; assumption.
    + replace (Zpos p~0) with (Zpos p + Zpos p) by lia.
      rewrite !Z.pow_add_r by lia. ring.
  - change (2 ^ 1) with 2. apply step; assumption.
Qed.

(** Rounding a mantissa whose low bits, the ones to drop, are all zero:
    the result is the mantissa without them. *)
Lemma binary_round_aux_exact (sx : bool) (m q : positive) (e k : Z) :
  0 <= k ->
  Zpos m = Zpos q * 2 ^ k ->
  fexp 53 1024 (Zpos (digits2_pos m) + e) - e = k ->
  e + k <= 1024 - 53 ->
  binary_round_aux 53 1024 sx (Zpos m) e loc_Exact = S754_finite sx q (e + k).
Proof.
  intros Hk Hm Hf He.
  assert (Hd : Zpos (digits2_pos m) = Zpos (digits2_pos q) + k)
    by (now apply digits2_pos_shift).
  assert (Hf2 : fexp 53 1024 (Zpos (digits2_pos q) + (e + k)) - (e + k) = 0).
  { replace (Zpos (digits2_pos q) + (e + k))
      with (Zpos (digits2_pos m) + e) by lia. lia. }
  unfold binary_round_aux.
  assert (H1 : shr_fexp 53 1024 (Zpos m) e loc_Exact
               = ({| shr_m := Zpos q; shr_r := false; shr_s := false |}, e + k)).
  { unfold shr_fexp. cbn [Zdigits2 shr_record_of_loc]. rewrite Hf.
    destruct k as [|p|p]; [| | lia].
    - cbn [shr]. rewrite Z.add_0_r. f_equal. f_equal.
      rewrite Z.pow_0_r in Hm. lia.
    - cbn [shr]. f_equal. rewrite Hm. apply iter_shr_1_exact. lia. }
  rewrite H1. cbn [shr_m loc_of_shr_record round_nearest_even].
  assert (H2 : shr_fexp 53 1024 (Zpos q) (e + k) loc_Exact
               = ({| shr_m := Zpos q; shr_r := false; shr_s := false |}, e + k)).
  { unfold shr_fexp. cbn [Zdigits2 shr_record_of_loc]. rewrite Hf2. reflexivity. }
  rewrite H2. cbn [shr_m].
  replace (e + k <=? 1024 - 53) with true by (symmetry; apply Z.leb_le; lia).
  reflexivity.
Qed.

Lemma pos_iter_xO (m d : positive) :
  Zpos (Pos.iter xO m d) = Zpos m * 2 ^ Zpos d.
Proof.
  induction d as [|d IH] using Pos.peano_ind.
  - cbn [Pos.iter]. change (2 ^ 1) with 2. lia.
  - rewrite Pos.iter_succ, Pos2Z.inj_xO, IH, Pos2Z.inj_succ.
    rewrite Z.pow_succ_r by lia. ring.
Qed.

(** An integer below [2^53] is a float as it stands, with its mantissa
    moved up to 53 bits. *)
Lemma float_of_Z_exact (n : positive) :
  Zpos n < 2 ^ 53 ->
  exists q,
    float_of_Z (Zpos n) = S754_finite false q (Zpos (digits2_pos n) - 53) /\
    Zpos q = Zpos n * 2 ^ (53 - Zpos (digits2_pos n)).
Proof.
  intros Hn. pose proof (digits2_pos_bounds n) as Hb.
  set (d := Zpos (digits2_pos n)) in *.
  assert (Hd : 0 < d <= 53).
  { split; [unfold d; lia |].
    destruct (Z.leb_spec d 53); [assumption |].
    assert (2 ^ 53 <= 2 ^ (d - 1)) by (apply pow2_ge; lia). lia. }
  unfold float_of_Z, binary_normalize, binary_round.
  fold d. rewrite Z.add_0_r.
  assert (Hfexp : fexp 53 1024 d = d - 53) by (unfold fexp, emin; lia).
  rewrite Hfexp. unfold shl_align. rewrite Z.sub_0_r.
  destruct (d - 53) as [|p|p] eqn:Hp; [| lia |].
  - exists n. split.
    + replace 0 with (0 + 0) at 2 by lia.
      apply binary_round_aux_exact; try lia.
      fold d. rewrite Z.add_0_r, Hfexp. lia.
    + replace (53 - d) with 0 by lia. lia.
  - exists (Pos.iter xO n p).
    assert (Hq : Zpos (Pos.iter xO n p) = Zpos n * 2 ^ (53 - d)).
    { rewrite pos_iter_xO. f_equal. f_equal. lia. }
    split; [| exact Hq].
    replace (Zneg p) with (Zneg p + 0) at 2 by lia.
    apply binary_round_aux_exact; try lia.
    rewrite (digits2_pos_shift n _ (53 - d)) by (lia || exact Hq).
    fold d. unfold fexp, emin. lia.
Qed.

Lemma two_and_a_half_eq :
  two_and_a_half = S754_finite false 5629499534213120 (-51).
Proof. reflexivity. Qed.

(** The product of such an integer with 2.5 is exact as long as five times
    the integer is below [2^53]. *)
Lemma mul_2_5_exact (n : positive) :
  5 * Zpos n < 2 ^ 53 ->
  exists q D,
    SFmul 53 1024 (float_of_Z (Zpos n)) two_and_a_half
    = S754_finite false q (D - 54) /\
    Zpos q = 5 * Zpos n * 2 ^ (53 - D) /\ 0 < D <= 53.
Proof.
  intros Hn.
  destruct (float_of_Z_exact n) as (mz & -> & Hmz); [lia |].
  rewrite two_and_a_half_eq. cbn [SFmul xorb].
  pose proof (digits2_pos_bounds n) as Hb.
  pose proof (digits2_pos_bounds (5 * n)) as Hb5.
  set (d := Zpos (digits2_pos n)) in *.
  set (D := Zpos (digits2_pos (5 * n))) in *.
  assert (Hd : 0 < d) by (unfold d; lia).
  assert (HD : 0 < D <= 53).
  { split; [unfold D; lia |].
    destruct (Z.leb_spec D 53); [assumption |].
    assert (2 ^ 53 <= 2 ^ (D - 1)) by (apply pow2_ge; lia). lia. }
  assert (HdD : d + 2 <= D).
  { destruct (Z.leb_spec (d + 2) D); [assumption |].
    assert (2 ^ D <= 2 ^ (d + 1)) by (apply pow2_ge; lia).
    replace (d + 1) with (Z.succ (Z.succ (d - 1))) in * by lia.
    rewrite !Z.pow_succ_r in * by lia. lia. }
  assert (Hq : exists q, Zpos q = 5 * Zpos n * 2 ^ (53 - D)).
  { assert (0 < 2 ^ (53 - D)) by (apply Z.pow_pos_nonneg; lia).
    exists (Z.to_pos (5 * Zpos n * 2 ^ (53 - D))). rewrite Z2Pos.id; nia. }
  destruct Hq as [q Hq]. exists q, D. split; [| split; assumption].
  assert (Hprod : Zpos (mz * 5629499534213120) = Zpos q * 2 ^ (D - d + 50)).
  { rewrite Pos2Z.inj_mul, Hmz, Hq.
    change (Zpos 5629499534213120) with (5 * 2 ^ 50).
    replace (5 * Zpos n * 2 ^ (53 - D) * 2 ^ (D - d + 50))
      with (5 * Zpos n * (2 ^ (53 - D) * 2 ^ (D - d + 50))) by ring.
    rewrite <- Z.pow_add_r by lia.
    replace (Zpos n * 2 ^ (53 - d) * (5 * 2 ^ 50))
      with (5 * Zpos n * (2 ^ (53 - d) * 2 ^ 50)) by ring.
    rewrite <- Z.pow_add_r by lia.
    f_equal. f_equal. lia. }
  replace (D - 54) with ((d - 53 + -51) + (D - d + 50)) by lia.
  apply binary_round_aux_exact; [lia | exact Hprod | | lia].
  rewrite (digits2_pos_shift q _ (D - d + 50)) by (lia || exact Hprod).
  rewrite (digits2_pos_unique q 53).
  - unfold fexp, emin. lia.
  - rewrite Hq.
    assert (0 < 2 ^ (53 - D)) by (apply Z.pow_pos_nonneg; lia).
    change (Zpos (5 * n)) with (5 * Zpos n) in Hb5.
    split.
    + replace (53 - 1) with ((D - 1) + (53 - D)) by lia.
      rewrite Z.pow_add_r by lia. nia.
    + replace 53 with (D + (53 - D)) at 2 by lia.
      rewrite Z.pow_add_r by lia. nia.
Qed.

(** For every length that a text or a list can have, [int(n * 2.5)] as the
    interpreter computes it in binary64 is the integer [5 * n / 2]. *)
Lemma int_times_2_5_float_exact (n : Z) :
  0 <= n < 2 ^ 50 ->
  int_times_2_5_float n = Ok (int_times_2_5 n).
Proof.
  intros Hn. destruct n as [|p|p]; [reflexivity | | lia].
  change (2 ^ 50) with 1125899906842624 in Hn.
  assert (H5 : 5 * Zpos p < 2 ^ 53)
    by (change (2 ^ 53) with 9007199254740992; lia).
  unfold int_times_2_5_float.
  destruct (mul_2_5_exact p H5) as (q & D & Hmul & Hq & HD).
  destruct (float_of_Z_exact p) as (mz & Hf & _);
    [change (2 ^ 53) with 9007199254740992; lia |].
  rewrite Hf in *. rewrite Hmul. cbn [int_of_float].
  replace (0 <=? D - 54) with false by (symmetry; apply Z.leb_gt; lia).
  unfold int_times_2_5. f_equal. rewrite Hq.
  replace (- (D - 54)) with (1 + (53 - D)) by lia.
  rewrite Z.pow_add_r by lia. change (2 ^ 1) with 2.
  assert (0 < 2 ^ (53 - D)) by (apply Z.pow_pos_nonneg; lia).
  rewrite Z.div_mul_cancel_r by lia. reflexivity.
Qed.

(** ** Properties of the scorer *)


Section ScorerClaims.
Context {B : Builtins}.

Lemma multi_channel_cond_spec (row : dict pyval) (multi : bool) :
  multi_channel_cond row = Ok multi ->
  exists bw,
    lookup "bandwidth" row = Some (PStr bw) /\
    (multi = true <->
     starts_with_text "40" bw \/ starts_with_text "80" bw \/ flag_set row).
Proof.
  unfold multi_channel_cond, getitem, flag_set, get_default, starts_with_text.
  destruct (lookup "bandwidth" row) as [bw|]; [|discriminate].
  destruct bw as [| | | |bw| |]; try discriminate.
  cbn [bind py_startswith]. unfold startswith.
  intros H. exists bw. split; [reflexivity |].
  rewrite <- !prefix_app.
  destruct (String.prefix "40" bw); [injection H as <-; tauto |].
  destruct (String.prefix "80" bw); [injection H as <-; tauto |].
  injection H as <-.
  destruct (lookup "multi_channel" row) as [v|].
  - split.
    + intros Hv. right; right. eauto.
    + intros [H|[H|[v' [Hv' Ht]]]]; try discriminate. now injection Hv' as ->.
  - cbn [truthy]. split; [discriminate |].
    intros [H|[H|[v' [Hv' _]]]]; discriminate.
Qed.

Lemma timing_ok_spec (row : dict pyval) :
  timing_ok row = true
  <-> exists v f,
        lookup "beacon_int" row = Some v /\ py_float v = Ok f /\
        in_range f = true.
Proof.
  unfold timing_ok, getitem, in_range.
  destruct (lookup "beacon_int" row) as [v|].
  - cbn [bind]. destruct (py_float v) as [f|e] eqn:Hf; cbn [bind].
    + destruct (SFleb ten f) eqn:Hle; cbn [bind].
      * split.
        -- intros H. exists v, f. rewrite Hle, H. auto.
        -- intros [v' [f' [Hv [Hf' H]]]]. injection Hv as <-.
           rewrite Hf in Hf'. injection Hf' as <-.
           rewrite Hle in H. exact H.
      * split; [discriminate |].
        intros [v' [f' [Hv [Hf' H]]]]. injection Hv as <-.
        rewrite Hf in Hf'. injection Hf' as <-.
        rewrite Hle in H. discriminate.
    + split; [discriminate |].
      intros [v' [f' [Hv [Hf' _]]]]. injection Hv as <-. congruence.
  - cbn [bind]. split; [discriminate |].
    intros [v [f [Hv _]]]. discriminate.
Qed.

(** [compute_scores] returns a table as soon as the row has the columns
    it reads with values of the kinds the normaliser writes. *)
Lemma compute_scores_total (row : dict pyval) (oui ep rsn : pyval)
      (ssid bw : string) (ne : num) (items : list pyval) :
  lookup "oui_vendor" row = Some oui ->
  lookup "ssid" row = Some (PStr ssid) ->
  lookup "entropy_penalty" row = Some ep -> py_neg ep = Ok ne ->
  lookup "rsn_ies" row = Some rsn -> py_iter rsn = Ok items ->
  lookup "bandwidth" row = Some (PStr bw) ->
  exists s, compute_scores row = Ok s.
Proof.
  intros Ho Hs He Hne Hr Hit Hb.
  unfold compute_scores, multi_channel_cond, getitem.
  rewrite Ho, Hs. cbn [bind]. rewrite match_oui_str, He. cbn [bind].
  rewrite Hne, Hr. cbn [bind]. rewrite Hit, Hb. cbn [bind py_startswith].
  replace (if negb (vendor_hit ssid)
           then dict_set "ouinomismatch" (NInt 3) _ else _)
    with (score_table (if vendor_hit ssid then 0 else 3) 0 0 ne (NInt 0))
    by (destruct (vendor_hit ssid); reflexivity).
  rewrite rsn_loop_id.
  destruct (timing_ok row);
    (destruct (startswith bw "40");
     [| destruct (startswith bw "80");
        [| destruct (truthy (get_default row "multi_channel" PNone))]]);
    cbn [bind]; eexists; reflexivity.
Qed.

(** C2: in every table of scores that [compute_scores] returns the
    entry [rsnmismatch] is exactly 0, whatever the row holds in
    [rsn_ies]. *)
Theorem rsn_mismatch_always_zero (row : dict pyval) (s : dict num) :
  compute_scores row = Ok s ->
  lookup "rsnmismatch" s = Some (NInt 0).
Proof.
  intros H.
  apply compute_scores_shape in H
    as (oui & ssid & ep & ne & rsn & items & multi & tot & _ & _ & _ & _ & _ & _ & _ & _ & ->).
  reflexivity.
Qed.

(** C3: in every table of scores, [total_score] is the maximum of the
    five sub-scores, the fifth being the negated entropy penalty of the
    row: it is what Python's [max] gives on the five, it is one of them,
    none of them is greater, and when the fifth is an integer it is the
    integer maximum.  The entry [total_score] that the table already holds
    (0) when the maximum is taken changes nothing. *)
Theorem total_score_is_max (row : dict pyval) (s : dict num) :
  compute_scores row = Ok s ->
  exists o r m t e tot ep,
    lookup "ouinomismatch" s = Some (NInt o) /\
    lookup "rsnmismatch" s = Some (NInt r) /\
    lookup "multi_channel" s = Some (NInt m) /\
    lookup "timing_anomalie" s = Some (NInt t) /\
    lookup "entropy_penalty" s = Some e /\
    lookup "total_score" s = Some tot /\
    lookup "entropy_penalty" row = Some ep /\ py_neg ep = Ok e /\
    py_max [NInt o; NInt r; NInt m; NInt t; e] = Ok tot /\
    In tot [NInt o; NInt r; NInt m; NInt t; e] /\
    (forall x, In x [NInt o; NInt r; NInt m; NInt t; e] -> num_lt tot x = false) /\
    (forall n, e = NInt n ->
               tot = NInt (Z.max o (Z.max r (Z.max m (Z.max t n))))).
Proof.
  intros H.
  apply compute_scores_shape in H
    as (oui & ssid & ep & ne & rsn & items & multi & tot
        & _ & _ & Hep & Hne & _ & _ & _ & Hmax & ->).
  apply py_max_table in Hmax as (H1 & H2 & H3 & H4).
  - exists (oui_score ssid), 0, (multi_score multi), (timing_score row),
           ne, tot, ep.
    repeat split; auto.
  - unfold oui_score. destruct (vendor_hit ssid); lia.
  - unfold multi_score. destruct multi; lia.
  - unfold timing_score. destruct (timing_ok row); lia.
Qed.


(** C7: the entry [timing_anomalie] is 0 exactly when the row has a
    [beacon_int] that [float] converts and whose value passes the range
    test, and 3 otherwise (no [beacon_int], one that [float] refuses, or a
    value out of range).  On the floats of binary64 the range test holds
    exactly for the values from 10 to 10000, bounds included.  At the
    bounds: 10.000 gives 0, 9.999 gives 3, 10000 gives 0 and 10000.001
    gives 3. *)
Theorem timing_anomaly_rule :
  (forall (row : dict pyval) (s : dict num),
      compute_scores row = Ok s ->
      (lookup "timing_anomalie" s = Some (NInt 0)
       <-> exists v f, lookup "beacon_int" row = Some v /\
                       py_float v = Ok f /\ in_range f = true) /\
      (~ (exists v f, lookup "beacon_int" row = Some v /\
                      py_float v = Ok f /\ in_range f = true)
       -> lookup "timing_anomalie" s = Some (NInt 3))) /\
  (forall f, valid_binary 53 1024 f = true ->
             (in_range f = true <-> between_10_and_10000 f)) /\
  timing_of (PFloat f_10_000) = Some (NInt 0) /\
  timing_of (PFloat f_9_999) = Some (NInt 3) /\
  timing_of (PFloat f_10000) = Some (NInt 0) /\
  timing_of (PInt 10000) = Some (NInt 0) /\
  timing_of (PFloat f_10000_001) = Some (NInt 3).
Proof.
  split; [| split; [exact in_range_exact | repeat split; vm_compute; reflexivity]].
  intros row s H.
  apply compute_scores_shape in H
    as (oui & ssid & ep & ne & rsn & items & multi & tot
        & _ & _ & _ & _ & _ & _ & _ & _ & ->).
  cbn [score_table lookup String.eqb Ascii.eqb Bool.eqb].
  unfold timing_score. rewrite <- timing_ok_spec.
  repeat split.
  - destruct (timing_ok row); [reflexivity | discriminate].
  - intros ->. reflexivity.
  - intros Hn. destruct (timing_ok row); [congruence | reflexivity].
Qed.


(** C10: two rows with the same columns that agree on every column but
    [oui_vendor] get the same result from [compute_scores]: the same table
    of scores, or the same exception. *)
Theorem vendor_field_is_ignored (r1 r2 : dict pyval) :
  agree_except "oui_vendor" r1 r2 ->
  compute_scores r1 = compute_scores r2.
Proof.
  intros [Hk Hl].
  assert (Hv : (exists v1 v2, lookup "oui_vendor" r1 = Some v1 /\
                              lookup "oui_vendor" r2 = Some v2)
               \/ (lookup "oui_vendor" r1 = None /\
                   lookup "oui_vendor" r2 = None)).
  { destruct (lookup "oui_vendor" r1) as [v1|] eqn:H1;
      destruct (lookup "oui_vendor" r2) as [v2|] eqn:H2; eauto.
    - apply lookup_none_keys in H2. rewrite <- Hk in H2.
      apply lookup_none_keys in H2. congruence.
    - apply lookup_none_keys in H1. rewrite Hk in H1.
      apply lookup_none_keys in H1. congruence. }
  unfold compute_scores, multi_channel_cond, timing_ok, getitem, get_default.
  rewrite (Hl "ssid"), (Hl "entropy_penalty"), (Hl "rsn_ies"),
    (Hl "bandwidth"), (Hl "multi_channel"), (Hl "beacon_int")
    by discriminate.
  destruct Hv as [(v1 & v2 & -> & ->)|[-> ->]]; reflexivity.
Qed.

End ScorerClaims.

(** ** Properties of the normaliser and of the run *)

Section NormaliserClaims.
Context {B : Builtins}.

Lemma ent_penalty_of_len (mac : pyval) (n : Z) :
  py_len mac = Ok n ->
  ent_penalty_of mac = NInt (Z.min (int_times_2_5 n) 100).
Proof.
  intros H. unfold ent_penalty_of, entropy_of, py_min. rewrite H.
  cbn [num_lt]. destruct (Z.ltb_spec 100 (int_times_2_5 n)); f_equal; lia.
Qed.

Lemma py_len_nonneg (v : pyval) (n : Z) : py_len v = Ok n -> 0 <= n.
Proof.
  destruct v; cbn [py_len]; intros H; try discriminate;
    injection H as <-; lia.
Qed.

Lemma slice_gives_len (n : nat) (v w : pyval) :
  py_slice_to n v = Ok w -> exists k, py_len v = Ok k.
Proof. destruct v; cbn [py_slice_to py_len]; try discriminate; eauto. Qed.

(** C1, as it holds: for every record that the normaliser accepts,
    [entropy_penalty] is [min(int(len(mac_addr) * 2.5), 100)] for the
    whole raw [mac_addr] (the empty text when the record has none), while
    the column [bssid] is that value cut to 8 items; the penalty lies
    between 0 and 100.  For "AA:BB:CC:DD:EE:FF" it is 42. *)
Theorem entropy_penalty_of_full_mac_addr :
  (forall (raw : pyval) (row : dict pyval),
      normalize_row raw = Ok row ->
      exists d n bssid8,
        raw = PDict d /\
        py_len (get_default d "mac_addr" (PStr "")) = Ok n /\
        lookup "entropy_penalty" row
          = Some (PInt (Z.min (int_times_2_5 n) 100)) /\
        0 <= Z.min (int_times_2_5 n) 100 <= 100 /\
        py_slice_to 8 (get_default d "mac_addr" (PStr "")) = Ok bssid8 /\
        lookup "bssid" row = Some bssid8) /\
  (exists row,
      normalize_row example_record = Ok row /\
      lookup "bssid" row = Some (PStr "AA:BB:CC") /\
      lookup "entropy_penalty" row = Some (PInt 42)).
Proof.
  split.
  - intros raw row H.
    apply normalize_row_shape in H
      as (d & ie & beacon & b8 & ssid & all & first & rssi
          & -> & _ & _ & Hb8 & _ & _ & _ & _ & ->).
    destruct (slice_gives_len _ _ _ Hb8) as [n Hn].
    exists d, n, b8. repeat split; auto.
    + cbn [lookup String.eqb Ascii.eqb Bool.eqb].
      now rewrite (ent_penalty_of_len _ _ Hn).
    + apply py_len_nonneg in Hn. unfold int_times_2_5.
      assert (0 <= 5 * n / 2) by (apply Z.div_pos; lia). lia.
    + lia.
  - exists example_row. repeat split.
Qed.

(** What the normaliser does for [rssi_dbm]: the float of the first item
    of [rssis.all]; [nan] when the record has no [rssis] or [rssis] has no
    [all]. *)
Lemma rssi_dbm_rule (raw : pyval) (row : dict pyval) :
  normalize_row raw = Ok row ->
  exists d all first rssi,
    raw = PDict d /\
    py_get (get_default d "rssis" (PDict [])) "all" (PList [PFloat nan])
      = Ok all /\
    py_index0 all = Ok first /\ py_float first = Ok rssi /\
    lookup "rssi_dbm" row = Some (PFloat rssi) /\
    (lookup "rssis" d = None -> rssi = nan) /\
    (forall rs, lookup "rssis" d = Some (PDict rs) ->
                lookup "all" rs = None -> rssi = nan).
Proof.
  intros H.
  apply normalize_row_shape in H
    as (d & ie & beacon & b8 & ssid & all & first & rssi
        & -> & _ & _ & _ & _ & Hall & Hfirst & Hrssi & ->).
  exists d, all, first, rssi. repeat split; auto.
  - intros Hn. unfold get_default in Hall. rewrite Hn in Hall.
    cbn in Hall. injection Hall as <-. cbn in Hfirst.
    injection Hfirst as <-. cbn in Hrssi. now injection Hrssi as <-.
  - intros rs Hrs Hn. unfold get_default in Hall at 1. rewrite Hrs in Hall.
    cbn [py_get] in Hall. unfold get_default in Hall. rewrite Hn in Hall.
    injection Hall as <-. cbn in Hfirst.
    injection Hfirst as <-. cbn in Hrssi. now injection Hrssi as <-.
Qed.

(** C5 at the failing input: a record whose [rssis.all] is the empty
    list.  [[np.nan][0]] is only reached when [all] is absent; on the empty
    list [[0]] raises [IndexError], the run stops and the output file is
    left as it was. *)
Theorem empty_rssi_list_stops_the_run (out : option string) :
  normalize_row (minimal_record [("rssis", PDict [("all", PList [])])])
    = Raise IndexError /\
  main (PList [minimal_record [("rssis", PDict [("all", PList [])])]]) out
    = (Raise IndexError, out) /\
  (exists row,
      normalize_row (minimal_record []) = Ok row /\
      lookup "rssi_dbm" row = Some (PFloat nan)).
Proof.
  repeat split. eexists. split; reflexivity.
Qed.

(** C4 at the failing inputs: a record whose [beacon_int], or whose first
    item of [rssis.all], is present and is a value that [float] refuses.
    The exception of [float] leaves the normaliser, the run stops and the
    output file is left as it was. *)
Theorem non_numeric_optional_field_stops_the_run
        (v : pyval) (e : exn) (out : option string) :
  py_float v = Raise e ->
  main (PList [minimal_record [("beacon_int", v)]]) out = (Raise e, out) /\
  main (PList [minimal_record [("rssis", PDict [("all", PList [v])])]]) out
    = (Raise e, out).
Proof.
  intros H. unfold main, build_table.
  cbn [py_iter bind mapM].
  assert (H1 : normalize_row (minimal_record [("beacon_int", v)]) = Raise e).
  { unfold normalize_row, minimal_record. cbn. now rewrite H. }
  assert (H2 : normalize_row
                 (minimal_record [("rssis", PDict [("all", PList [v])])])
               = Raise e).
  { unfold normalize_row, minimal_record. cbn. now rewrite H. }
  rewrite H1, H2. split; reflexivity.
Qed.

(** C8: when some record of the input has no [ssid], the run ends with
    an exception and the output file is left as it was before the run:
    [write_csv] is not reached. *)
Theorem missing_ssid_stops_the_run
        (data : pyval) (recs : list pyval) (r : pyval) (out : option string) :
  py_iter data = Ok recs ->
  In r recs ->
  py_has_key "ssid" r = false ->
  exists e, main data out = (Raise e, out).
Proof.
  intros Hit Hin Hs. unfold main, build_table. rewrite Hit. cbn [bind].
  destruct (mapM_raise normalize_row recs r Hin
              (normalize_row_needs_ssid r Hs)) as [e He].
  rewrite He. cbn [bind]. eauto.
Qed.

(** The run writes the file when the table is built. *)
Lemma main_writes (data : pyval) (out : option string) (df : list (dict pyval)) :
  build_table data = Ok df -> main data out = (Ok tt, Some (to_csv df)).
Proof. intros H. unfold main, write_csv. now rewrite H. Qed.

(** The steps of a run that builds its table. *)
Lemma build_table_steps (data : pyval) (df : list (dict pyval)) :
  build_table data = Ok df ->
  exists records rows dates scores,
    py_iter data = Ok records /\
    mapM normalize_row records = Ok rows /\
    to_datetime (column "date" (data_frame rows columns)) = Ok dates /\
    df = set_column "date" dates (data_frame rows columns) /\
    mapM compute_scores df = Ok scores.
Proof.
  unfold build_table. intros H.
  bind_inv H records Hrec. bind_inv H rows Hrows. bind_inv H dates Hdates.
  bind_inv H scores Hscores. injection H as <-.
  exists records, rows, dates, scores. auto.
Qed.

(** A row of the table never has a column [multi_channel], whatever the
    records of the input hold: in a run only the [bandwidth] text can set
    the multi-channel score. *)
Lemma table_row_has_no_flag (data : pyval) (df : list (dict pyval))
      (row : dict pyval) :
  build_table data = Ok df -> In row df -> lookup "multi_channel" row = None.
Proof.
  intros H Hin.
  apply build_table_steps in H as (records & rows & dates & scores
                                   & _ & _ & _ & -> & _).
  unfold set_column in Hin. apply in_map_iff in Hin as [[r v] [<- Hin]].
  apply in_combine_l in Hin. cbn [fst snd].
  rewrite lookup_dict_set_other by discriminate.
  unfold data_frame in Hin. apply in_map_iff in Hin as [r0 [<- _]].
  reflexivity.
Qed.

(** The end-to-end scenario: the example record gives the example row, the
    example scores, and the run writes the file. *)
Lemma example_run (out : option string) :
  normalize_row example_record = Ok example_row /\
  compute_scores example_row = Ok example_scores /\
  (to_datetime [PStr "2024-01-01T00:00:00"] = Ok [PStr "2024-01-01T00:00:00"] ->
   main (PList [example_record]) out = (Ok tt, Some (to_csv [example_row]))).
Proof.
  repeat split. intros Hd. unfold main, build_table.
  cbn [py_iter bind mapM].
  change (normalize_row example_record) with (Ok example_row).
  cbn [bind]. change (column "date" (data_frame [example_row] columns))
    with [PStr "2024-01-01T00:00:00"].
  rewrite Hd. reflexivity.
Qed.

(** The total of the example is the greatest sub-score, 3, and not the sum
    of the five, which is [-39]. *)
Lemma example_total_is_not_the_sum :
  lookup "total_score" example_scores = Some (NInt 3) /\
  3 + 0 + 0 + 0 + -42 = -39.
Proof. split; reflexivity. Qed.

(** The scorer accepts every row of the normaliser whose SSID is a
    text. *)
Lemma normalized_row_is_scored (raw : pyval) (row : dict pyval) (t : string) :
  normalize_row raw = Ok row ->
  lookup "ssid" row = Some (PStr t) ->
  exists s, compute_scores row = Ok s.
Proof.
  intros H Hs.
  pose proof H as H'.
  apply normalize_row_shape in H
    as (d & ie & beacon & b8 & ssid & all & first & rssi
        & -> & _ & _ & Hb8 & _ & _ & _ & _ & ->).
  destruct (slice_gives_len _ _ _ Hb8) as [n Hn].
  eapply compute_scores_total; try reflexivity.
  - exact Hs.
  - cbn [lookup String.eqb Ascii.eqb Bool.eqb].
    rewrite (ent_penalty_of_len _ _ Hn). reflexivity.
Qed.

End NormaliserClaims.

(** ** The statements at concrete inputs *)

(** The claim C1 as worded (the penalty computed from the displayed, cut
    bssid) fails: the example record has the displayed bssid "AA:BB:CC", of
    length 8, which would give 20, and its penalty is 42. *)
Lemma entropy_penalty_not_of_displayed_bssid :
  ~ (forall (B : Builtins) (raw : pyval) (row : dict pyval),
        normalize_row raw = Ok row -> entropy_of_displayed_bssid row).
Proof.
  intros H.
  destruct (H eval_builtins example_record example_row eq_refl)
    as (b & n & Hb & Hn & He).
  vm_compute in Hb. injection Hb as <-.
  vm_compute in Hn. injection Hn as <-.
  vm_compute in He. discriminate.
Qed.

Lemma entropy_penalty_of_full_mac_addr_witness :
  @normalize_row eval_builtins example_record = Ok example_row /\
  exists d n bssid8,
    example_record = PDict d /\
    py_len (get_default d "mac_addr" (PStr "")) = Ok n /\
    lookup "entropy_penalty" example_row
      = Some (PInt (Z.min (int_times_2_5 n) 100)) /\
    0 <= Z.min (int_times_2_5 n) 100 <= 100 /\
    py_slice_to 8 (get_default d "mac_addr" (PStr "")) = Ok bssid8 /\
    lookup "bssid" example_row = Some bssid8.
Proof.
  split; [reflexivity |].
  apply (proj1 (@entropy_penalty_of_full_mac_addr eval_builtins)
           example_record example_row).
  reflexivity.
Defined.

Lemma rsn_mismatch_always_zero_witness :
  @compute_scores eval_builtins row_with_rsn_list = Ok example_scores /\
  lookup "rsnmismatch" example_scores = Some (NInt 0).
Proof.
  split; [reflexivity |].
  apply (@rsn_mismatch_always_zero eval_builtins row_with_rsn_list).
  reflexivity.
Defined.

Lemma total_score_is_max_witness :
  @compute_scores eval_builtins example_row = Ok example_scores /\
  exists o r m t e tot ep,
    lookup "ouinomismatch" example_scores = Some (NInt o) /\
    lookup "rsnmismatch" example_scores = Some (NInt r) /\
    lookup "multi_channel" example_scores = Some (NInt m) /\
    lookup "timing_anomalie" example_scores = Some (NInt t) /\
    lookup "entropy_penalty" example_scores = Some e /\
    lookup "total_score" example_scores = Some tot /\
    lookup "entropy_penalty" example_row = Some ep /\ py_neg ep = Ok e /\
    py_max [NInt o; NInt r; NInt m; NInt t; e] = Ok tot /\
    In tot [NInt o; NInt r; NInt m; NInt t; e] /\
    (forall x, In x [NInt o; NInt r; NInt m; NInt t; e] -> num_lt tot x = false) /\
    (forall n, e = NInt n ->
               tot = NInt (Z.max o (Z.max r (Z.max m (Z.max t n))))).
Proof.
  split; [reflexivity |].
  apply (@total_score_is_max eval_builtins example_row example_scores).
  reflexivity.
Defined.


Lemma timing_anomaly_rule_witness :
  @compute_scores eval_builtins row_below_range = Ok scores_below_range /\
  (lookup "timing_anomalie" scores_below_range = Some (NInt 0)
   <-> exists v f, lookup "beacon_int" row_below_range = Some v /\
                   @py_float eval_builtins v = Ok f /\ in_range f = true) /\
  (~ (exists v f, lookup "beacon_int" row_below_range = Some v /\
                  @py_float eval_builtins v = Ok f /\ in_range f = true)
   -> lookup "timing_anomalie" scores_below_range = Some (NInt 3)).
Proof.
  split; [reflexivity |].
  apply (proj1 (@timing_anomaly_rule eval_builtins)
           row_below_range scores_below_range).
  reflexivity.
Defined.


Lemma vendor_field_is_ignored_witness :
  agree_except "oui_vendor" example_row row_with_other_vendor /\
  @compute_scores eval_builtins example_row
  = @compute_scores eval_builtins row_with_other_vendor.
Proof.
  assert (H : agree_except "oui_vendor" example_row row_with_other_vendor)
    by (apply agree_except_dict_set; reflexivity).
  split; [exact H |].
  apply (@vendor_field_is_ignored eval_builtins _ _ H).
Defined.

Lemma non_numeric_optional_field_stops_the_run_witness :
  @py_float eval_builtins (PStr "n/a") = Raise ValueError /\
  @main eval_builtins
    (PList [minimal_record [("beacon_int", PStr "n/a")]]) None
  = (Raise ValueError, None) /\
  @main eval_builtins
    (PList [minimal_record
              [("rssis", PDict [("all", PList [PStr "n/a"])])]]) None
  = (Raise ValueError, None).
Proof.
  split; [reflexivity |].
  apply (@non_numeric_optional_field_stops_the_run eval_builtins).
  reflexivity.
Defined.

Lemma missing_ssid_stops_the_run_witness :
  exists recs r,
    @py_iter data_with_missing_ssid = Ok recs /\
    In r recs /\
    py_has_key "ssid" r = false /\
    exists e, @main eval_builtins data_with_missing_ssid None = (Raise e, None).
Proof.
  eexists. eexists.
  assert (H1 : py_iter data_with_missing_ssid
               = Ok [example_record;
                     PDict [("mac_addr", PStr "AA:BB:CC:DD:EE:00");
                            ("ie_info", PDict [("RSN", PList [])])]])
    by reflexivity.
  assert (H2 : In (PDict [("mac_addr", PStr "AA:BB:CC:DD:EE:00");
                          ("ie_info", PDict [("RSN", PList [])])])
                  [example_record;
                   PDict [("mac_addr", PStr "AA:BB:CC:DD:EE:00");
                          ("ie_info", PDict [("RSN", PList [])])]])
    by (right; left; reflexivity).
  split; [exact H1 |]. split; [exact H2 |]. split; [reflexivity |].
  apply (@missing_ssid_stops_the_run eval_builtins _ _ _ None H1 H2).
  reflexivity.
Defined.

(** ** [read_json]: what the clean-up of the text does *)

Lemma prefix_nil (s : string) : String.prefix "" s = true.
Proof. destruct s; reflexivity. Qed.

Lemma prefix_cons (a c : ascii) (p s : string) :
  String.prefix (String a p) (String c s) = (Ascii.eqb a c && String.prefix p s)%bool.
Proof.
  cbn [String.prefix]. destruct (ascii_dec a c) as [->|Hne].
  - now rewrite Ascii.eqb_refl.
  - apply Ascii.eqb_neq in Hne. now rewrite Hne.
Qed.

Lemma contains_cons (n : string) (c : ascii) (r : string) :
  contains n (String c r) = (String.prefix n (String c r) || contains n r)%bool.
Proof. cbn [contains]. destruct (String.prefix n (String c r)); reflexivity. Qed.

Lemma prefix_slash (s : string) :
  String.prefix "/" s = match s with
                        | String c _ => Ascii.eqb "/" c
                        | EmptyString => false
                        end.
Proof.
  destruct s as [|c r]; [reflexivity |].
  rewrite prefix_cons, prefix_nil. apply andb_true_r.
Qed.

(** What the scan gives never holds [//]; inside a match it starts with a
    line feed or is empty; outside, it starts with a slash only if the text
    does. *)
Lemma strip_from_no_comment (s : string) :
  forall b,
    contains "//" (strip_from b s) = false /\
    (b = true -> String.prefix "/" (strip_from b s) = false) /\
    (b = false -> String.prefix "/" (strip_from b s) = true ->
     String.prefix "/" s = true).
Proof.
  induction s as [|c r IH]; intros b.
  - cbn [strip_from]. split; [reflexivity | split; [reflexivity | auto]].
  - destruct (IH true) as (Ht1 & Ht2 & _).
    destruct (IH false) as (Hf1 & _ & Hf3).
    specialize (Ht2 eq_refl). specialize (Hf3 eq_refl).
    destruct b; cbn [strip_from].
    + destruct (Ascii.eqb c newline) eqn:Hc.
      * apply Ascii.eqb_eq in Hc. subst c.
        split; [| split; [| discriminate]].
        -- rewrite contains_cons, Hf1, prefix_cons. reflexivity.
        -- intros _. rewrite prefix_slash. reflexivity.
      * split; [exact Ht1 | split; [intros _; exact Ht2 | discriminate]].
    + destruct (Ascii.eqb c "/" && String.prefix "/" r)%bool eqn:Hc.
      * apply andb_true_iff in Hc as [Hc Hr]. apply Ascii.eqb_eq in Hc. subst c.
        split; [exact Ht1 | split; [discriminate |]].
        intros _ _. rewrite prefix_slash. reflexivity.
      * split; [| split; [discriminate |]].
        -- rewrite contains_cons, Hf1, orb_false_r, prefix_cons.
           destruct (Ascii.eqb "/" c) eqn:E; [| reflexivity].
           apply Ascii.eqb_eq in E. subst c.
           rewrite Ascii.eqb_refl in Hc. cbn [andb] in Hc |- *.
           destruct (String.prefix "/" (strip_from false r)) eqn:P; [| reflexivity].
           rewrite (Hf3 eq_refl) in Hc. discriminate.
        -- intros _. rewrite !prefix_slash. auto.
Qed.

(** A text without [//] goes through the first substitution unchanged. *)
Lemma strip_line_comments_id (t : string) :
  contains "//" t = false -> strip_line_comments t = t.
Proof.
  unfold strip_line_comments.
  induction t as [|c r IH]; [reflexivity |].
  rewrite contains_cons, orb_false_iff, prefix_cons. intros [Hp Hr].
  cbn [strip_from].
  replace (Ascii.eqb c "/" && String.prefix "/" r)%bool with false
    by (now rewrite Ascii.eqb_sym).
  now rewrite IH.
Qed.

Lemma strip_from_line_breaks (s : string) :
  forall b, line_breaks (strip_from b s) = line_breaks s.
Proof.
  unfold line_breaks.
  induction s as [|c r IH]; intros b; [destruct b; reflexivity |].
  destruct b; cbn [strip_from str_remove].
  - destruct (Ascii.eqb c newline) eqn:Hc; cbn [negb str_remove].
    + rewrite Hc. cbn [negb String.length]. now rewrite IH.
    + apply IH.
  - destruct (Ascii.eqb c "/" && String.prefix "/" r)%bool eqn:Hs.
    + apply andb_true_iff in Hs as [Hc _]. apply Ascii.eqb_eq in Hc. subst c.
      cbn [Ascii.eqb Bool.eqb negb]. apply IH.
    + cbn [str_remove]. destruct (Ascii.eqb c newline); cbn [negb String.length];
        now rewrite IH.
Qed.

(** X1: after the first substitution of [read_json] no [//] is left in the
    text.  The substitution does not know of quoted strings: a text that
    holds [//] anywhere, also inside a string such as a URL, comes out
    changed. *)
Theorem comments_are_all_removed (txt : string) :
  contains "//" (strip_line_comments txt) = false /\
  (contains "//" txt = true -> strip_line_comments txt <> txt).
Proof.
  pose proof (proj1 (strip_from_no_comment txt false)) as H.
  split; [exact H |].
  intros Hc Heq. unfold strip_line_comments in Heq.
  rewrite Heq in H. congruence.
Qed.

(** X2: the texts that the first substitution leaves as they are, are the
    texts without [//]; applying it twice is applying it once. *)
Theorem comment_removal_fixpoints (txt : string) :
  (strip_line_comments txt = txt <-> contains "//" txt = false) /\
  strip_line_comments (strip_line_comments txt) = strip_line_comments txt.
Proof.
  split; [split |].
  - intros Heq. rewrite <- Heq.
    apply (proj1 (strip_from_no_comment txt false)).
  - apply strip_line_comments_id.
  - apply strip_line_comments_id.
    apply (proj1 (strip_from_no_comment txt false)).
Qed.

Lemma strip_from_length (s : string) :
  forall b, (String.length (strip_from b s) <= String.length s)%nat.
Proof.
  induction s as [|c r IH]; intros b; [destruct b; apply Nat.le_refl |].
  pose proof (IH true). pose proof (IH false).
  destruct b; cbn [strip_from].
  - destruct (Ascii.eqb c newline); cbn [String.length]; lia.
  - destruct (Ascii.eqb c "/" && String.prefix "/" r)%bool;
      cbn [String.length]; lia.
Qed.

(** X3: the first substitution keeps every line feed, so the text has as
    many lines after it as before, and it never makes the text longer. *)
Theorem comment_removal_keeps_lines (txt : string) :
  line_breaks (strip_line_comments txt) = line_breaks txt /\
  (String.length (strip_line_comments txt) <= String.length txt)%nat.
Proof.
  unfold strip_line_comments. split.
  - apply strip_from_line_breaks.
  - apply strip_from_length.
Qed.

Lemma closer_not_space (c : ascii) : is_closer c = true -> is_space c = false.
Proof.
  unfold is_closer. rewrite orb_true_iff.
  intros [H|H]; apply Ascii.eqb_eq in H; subst c; reflexivity.
Qed.

Lemma closer_not_comma (c : ascii) : is_closer c = true -> Ascii.eqb c "," = false.
Proof.
  unfold is_closer. rewrite orb_true_iff.
  intros [H|H]; apply Ascii.eqb_eq in H; subst c; reflexivity.
Qed.

Lemma space_not_comma (c : ascii) : is_space c = true -> Ascii.eqb c "," = false.
Proof.
  intros H. destruct (Ascii.eqb c ",") eqn:E; [| reflexivity].
  apply Ascii.eqb_eq in E. subst c. discriminate.
Qed.

Lemma closes_spec (r : string) :
  closes r = true
  <-> exists w c b, r = (w ++ String c b)%string /\
                    str_forall is_space w = true /\ is_closer c = true.
Proof.
  induction r as [|c r IH]; cbn [closes].
  - split; [discriminate |].
    intros (w & c & b & H & _). destruct w; discriminate.
  - destruct (is_space c) eqn:Hs.
    + rewrite IH. split.
      * intros (w & c' & b & -> & Hw & Hc).
        exists (String c w), c', b. cbn [String.append str_forall].
        rewrite Hs, Hw. auto.
      * intros (w & c' & b & H & Hw & Hc). destruct w as [|x w].
        -- cbn [String.append] in H. injection H as Hx Hr. subst c' b.
           apply closer_not_space in Hc. congruence.
        -- cbn [String.append str_forall] in H, Hw. injection H as Hx Hr.
           subst x r. apply andb_true_iff in Hw as [_ Hw].
           exists w, c', b. auto.
    + split.
      * intros Hc. exists EmptyString, c, r. auto.
      * intros (w & c' & b & H & Hw & Hc). destruct w as [|x w].
        -- cbn [String.append] in H. injection H as Hx Hr. now subst c' b.
        -- cbn [String.append str_forall] in H, Hw. injection H as Hx Hr.
           subst x r. apply andb_true_iff in Hw as [Hx _]. congruence.
Qed.

Lemma strip_trailing_commas_length (s : string) :
  (String.length (strip_trailing_commas s) <= String.length s)%nat.
Proof.
  induction s as [|c r IH]; [apply Nat.le_refl |].
  cbn [strip_trailing_commas].
  destruct (Ascii.eqb c "," && closes r)%bool; cbn [String.length]; lia.
Qed.

Lemma has_trailing_comma_cons (c : ascii) (r : string) :
  has_trailing_comma (String c r)
  <-> (c = ","%char /\ closes r = true) \/ has_trailing_comma r.
Proof.
  unfold has_trailing_comma. split.
  - intros (a & w & x & b & H & Hw & Hx). destruct a as [|y a].
    + cbn [String.append] in H. injection H as -> ->.
      left. split; [reflexivity |]. apply closes_spec.
      exists w, x, b. auto.
    + cbn [String.append] in H. injection H as <- ->.
      right. exists a, w, x, b. auto.
  - intros [[-> Hc]|(a & w & x & b & -> & Hw & Hx)].
    + apply closes_spec in Hc as (w & x & b & -> & Hw & Hx).
      exists EmptyString, w, x, b. auto.
    + exists (String c a), w, x, b. auto.
Qed.


Lemma closes_strip_trailing_commas (r : string) :
  closes r = true -> closes (strip_trailing_commas r) = true.
Proof.
  induction r as [|c r IH]; [discriminate |].
  cbn [closes strip_trailing_commas].
  destruct (is_space c) eqn:Hs.
  - intros Hr. rewrite (space_not_comma c Hs). cbn [andb closes].
    rewrite Hs. auto.
  - intros Hc. rewrite (closer_not_comma c Hc). cbn [andb closes].
    now rewrite Hs.
Qed.

(** X4: the second substitution of [read_json] deletes commas and nothing
    else: without its commas the text is the same before and after, and the
    text never gets longer. *)
Theorem only_commas_are_deleted (txt : string) :
  str_remove (Ascii.eqb ",") (strip_trailing_commas txt)
  = str_remove (Ascii.eqb ",") txt /\
  (String.length (strip_trailing_commas txt) <= String.length txt)%nat.
Proof.
  split; [| apply strip_trailing_commas_length].
  induction txt as [|c r IH]; [reflexivity |].
  cbn [strip_trailing_commas].
  destruct (Ascii.eqb c "," && closes r)%bool eqn:E.
  - apply andb_true_iff in E as [Hc _]. apply Ascii.eqb_eq in Hc. subst c.
    cbn [str_remove]. rewrite Ascii.eqb_refl. exact IH.
  - cbn [str_remove]. destruct (Ascii.eqb "," c); [exact IH | now rewrite IH].
Qed.


(** X6: the second substitution makes one pass.  Of two commas in a row
    before a closer only the second is deleted, and what comes out still has
    a comma before the closer. *)
Theorem doubled_trailing_comma_survives (r : string) :
  closes r = true ->
  strip_trailing_commas (String "," (String "," r))
  = String "," (strip_trailing_commas r) /\
  has_trailing_comma (strip_trailing_commas (String "," (String "," r))).
Proof.
  intros Hr.
  assert (E : strip_trailing_commas (String "," (String "," r))
              = String "," (strip_trailing_commas r)).
  { cbn [strip_trailing_commas closes]. rewrite Hr. reflexivity. }
  split; [exact E |].
  rewrite E. apply has_trailing_comma_cons. left. split; [reflexivity |].
  now apply closes_strip_trailing_commas.
Qed.

Section ReadJsonFacts.
Variable json5_load : option (string -> res pyval).
Variable json_loads : string -> res pyval.


End ReadJsonFacts.

(** ** The normaliser: bandwidth, bounds, fields read, failures *)












Lemma mapM_ok_from {A C : Type} (f : A -> res C) (l : list A) (cs : list C) :
  mapM f l = Ok cs -> forall c, In c cs -> exists a, In a l /\ f a = Ok c.
Proof.
  revert cs; induction l as [|x l IH]; intros cs H c Hc; cbn [mapM] in H.
  - injection H as <-. destruct Hc.
  - bind_inv H y Hy. bind_inv H ys Hys. injection H as <-.
    destruct Hc as [<-|Hc].
    + exists x. split; [now left | exact Hy].
    + destruct (IH _ Hys _ Hc) as [a [Ha Hfa]]. exists a. split; [now right | exact Hfa].
Qed.

Lemma mapM_forall2 {A C : Type} (f : A -> res C) (l : list A) (cs : list C) :
  mapM f l = Ok cs -> Forall2 (fun a c => f a = Ok c) l cs.
Proof.
  revert cs; induction l as [|x l IH]; intros cs H; cbn [mapM] in H.
  - injection H as <-. constructor.
  - bind_inv H y Hy. bind_inv H ys Hys. injection H as <-.
    constructor; auto.
Qed.

Lemma str_take_length (n : nat) (s : string) :
  (String.length (str_take n s) <= n)%nat.
Proof.
  revert s; induction n as [|n IH]; intros s; [reflexivity |].
  destruct s as [|c r]; cbn [str_take String.length]; [lia |].
  specialize (IH r). lia.
Qed.

Lemma str_take_prefix (n : nat) (s : string) :
  exists rest, s = (str_take n s ++ rest)%string.
Proof.
  revert s; induction n as [|n IH]; intros s.
  - exists s. reflexivity.
  - destruct s as [|c r]; [exists EmptyString; reflexivity |].
    destruct (IH r) as [rest Hr]. exists rest.
    cbn [str_take String.append]. now rewrite <- Hr.
Qed.

Section NormaliserFacts.
Context {B : Builtins}.

Lemma normalized_row_fits (raw : pyval) (row : dict pyval) :
  normalize_row raw = Ok row ->
  keys row = columns /\
  map (fun c => (c, get_default row c (PFloat nan))) columns = row.
Proof.
  intros H.
  apply normalize_row_shape in H
    as (d & ie & beacon & b8 & ssid & all & first & rssi
        & _ & _ & _ & _ & _ & _ & _ & _ & ->).
  split; reflexivity.
Qed.


(** X12: in a row of the normaliser the [bssid] column has at most 8 items
    and, for a text, is the beginning of the record's [mac_addr]; the
    [rsn_ies] column is a text of at most 60 characters. *)
Theorem display_columns_are_cut (raw : pyval) (row : dict pyval) :
  normalize_row raw = Ok row ->
  exists d b n t,
    raw = PDict d /\
    lookup "bssid" row = Some b /\ py_len b = Ok n /\ n <= 8 /\
    (forall mac, lookup "mac_addr" d = Some (PStr mac) ->
                 exists p rest, b = PStr p /\ mac = (p ++ rest)%string) /\
    lookup "rsn_ies" row = Some (PStr t) /\ (String.length t <= 60)%nat.
Proof.
  intros H.
  apply normalize_row_shape in H
    as (d & ie & beacon & b8 & ssid & all & first & rssi
        & -> & _ & _ & Hb8 & _ & _ & _ & _ & ->).
  unfold get_default in Hb8.
  assert (Hlen : exists n, py_len b8 = Ok n /\ n <= 8).
  { destruct (match lookup "mac_addr" d with Some v => v | None => PStr "" end)
      as [| | | |s|l|];
      cbn [py_slice_to] in Hb8; try discriminate.
    - assert (E : b8 = PStr (str_take 8 s)) by congruence. subst b8.
      cbn [py_len]. eexists. split; [reflexivity |].
      pose proof (str_take_length 8 s). lia.
    - assert (E : b8 = PList (firstn 8 l)) by congruence. subst b8.
      cbn [py_len]. eexists. split; [reflexivity |].
      pose proof (firstn_le_length 8 l). lia. }
  destruct Hlen as (n & Hn & Hn8).
  exists d, b8, n,
    (str_take 60 (py_str (get_default ie "RSN" (PList [])))).
  repeat split; auto.
  - intros mac Hmac. rewrite Hmac in Hb8. cbn [py_slice_to] in Hb8.
    assert (E : b8 = PStr (str_take 8 mac)) by congruence.
    destruct (str_take_prefix 8 mac) as [rest Hr].
    exists (str_take 8 mac), rest. auto.
  - apply str_take_length.
Qed.

(** X13: the normaliser reads nine fields of a record and no other: two
    records that agree on these fields get the same row, or the same
    exception, whatever else they hold (a [multi_channel] flag, say). *)
Theorem unread_fields_are_ignored (d1 d2 : dict pyval) :
  agree_on fields_read d1 d2 ->
  normalize_row (PDict d1) = normalize_row (PDict d2).
Proof.
  intros H.
  assert (Hk : forall k, In k fields_read -> lookup k d1 = lookup k d2)
    by exact H.
  unfold normalize_row, py_get, py_getitem, py_has_key, has_key, getitem,
    get_default.
  rewrite (Hk "timestamp"), (Hk "mac_addr"), (Hk "vendor"), (Hk "ie_info"),
    (Hk "beacon_int"), (Hk "bandwidth"), (Hk "ssid"), (Hk "channel"),
    (Hk "rssis") by (cbn; tauto).
  reflexivity.
Qed.

End NormaliserFacts.

Section NormaliserFailures.
Context {B : Builtins}.


(** X15: a record that has an [ssid] and a dict as [ie_info], and none of
    the seven optional fields, is accepted; its row holds the defaults:
    no date, empty [bssid], vendor, channel and bandwidth, no
    [bandwidth_mhz], [nan] for [beacon_int] and [rssi_dbm], and an entropy
    penalty of 0. *)
Theorem missing_optional_fields_get_defaults
        (d : dict pyval) (ssid : pyval) (ie : dict pyval) :
  lookup "ssid" d = Some ssid ->
  lookup "ie_info" d = Some (PDict ie) ->
  (forall k, In k optional_fields -> lookup k d = None) ->
  normalize_row (PDict d) = Ok (default_row ssid ie).
Proof.
  intros Hssid Hie Hopt.
  unfold normalize_row, py_get, py_getitem, py_has_key, has_key, getitem,
    get_default.
  rewrite Hssid, Hie.
  rewrite (Hopt "timestamp"), (Hopt "mac_addr"), (Hopt "vendor"),
    (Hopt "beacon_int"), (Hopt "bandwidth"), (Hopt "channel"),
    (Hopt "rssis") by (cbn; tauto).
  reflexivity.
Qed.

End NormaliserFailures.

(** ** The scorer: failures, dead branches, ranges *)

Lemma lower_char_not_W (c : ascii) : Ascii.eqb (lower_char c) "W" = false.
Proof. destruct c as [[] [] [] [] [] [] [] []]; reflexivity. Qed.

Lemma lower_has_no_W (s : string) :
  str_forall (fun x => negb (Ascii.eqb x "W")) (lower s) = true.
Proof.
  induction s as [|c r IH]; [reflexivity |].
  cbn [lower str_map str_forall]. rewrite lower_char_not_W. exact IH.
Qed.

Lemma contains_needs_first (c : ascii) (n s : string) :
  str_forall (fun x => negb (Ascii.eqb x c)) s = true ->
  contains (String c n) s = false.
Proof.
  induction s as [|x r IH]; [reflexivity |].
  cbn [str_forall]. intros H. apply andb_true_iff in H as [Hx Hr].
  rewrite contains_cons, prefix_cons, (IH Hr).
  rewrite Ascii.eqb_sym. apply negb_true_iff in Hx. now rewrite Hx.
Qed.

(** X16: the branch of the loop that would append "WEP" is never taken,
    whatever the keys of the table: "WEP" is looked for in the lower-cased
    key, which has no capital letter.  The list [expected_ies] is the list of
    the keys in capitals. *)
Theorem wep_branch_is_never_taken (ks : list string) :
  (forall k, contains "WEP" (lower k) = false) /\
  expected_ies_for ks = map upper ks /\
  expected_ies = expected_ies_for (keys base_expected).
Proof.
  assert (Hw : forall k, contains "WEP" (lower k) = false).
  { intros k. apply contains_needs_first. apply lower_has_no_W. }
  split; [exact Hw | split; [| reflexivity]].
  unfold expected_ies_for.
  assert (G : forall acc,
             fold_left
               (fun acc k => if contains "WEP" (lower k)
                             then (acc ++ ["WEP"%string])%list
                             else (acc ++ [upper k])%list) ks acc
             = (acc ++ map upper ks)%list).
  { induction ks as [|k ks IH]; intros acc; cbn [fold_left map].
    - now rewrite app_nil_r.
    - rewrite Hw, IH, <- app_assoc. reflexivity. }
  apply (G []).
Qed.

Lemma char_is_not_expected (c : ascii) :
  py_in_strings (PStr (String c EmptyString)) expected_ies = false.
Proof.
  rewrite expected_ies_eq. cbn [py_in_strings existsb String.eqb].
  destruct (Ascii.eqb c "W"); reflexivity.
Qed.

(** X17: on a text the loop over [rsn_ies] visits single characters, and
    no single character is one of the expected suites: on the rows of the
    normaliser, whose [rsn_ies] is a text, the test of the loop never
    holds. *)
Theorem rsn_test_never_holds_on_text {B : Builtins} (t : string) :
  exists items,
    py_iter (PStr t) = Ok items /\
    forallb (fun ie_type => negb (py_in_strings ie_type expected_ies)) items
    = true.
Proof.
  exists (map PStr (chars t)). split; [reflexivity |].
  unfold chars. induction (list_ascii_of_string t) as [|c l IH]; [reflexivity |].
  cbn [map forallb]. rewrite char_is_not_expected. exact IH.
Qed.

Section ScorerFacts.
Context {B : Builtins}.

(** X18: [compute_scores] returns a table exactly when the row has an
    [oui_vendor], a text as [ssid], a number as [entropy_penalty], something
    a loop can visit as [rsn_ies] and a text as [bandwidth]; on every other
    row it raises. *)
Theorem scorer_accepts_iff (row : dict pyval) :
  is_ok (compute_scores row) = true
  <-> exists oui ssid ep ne rsn items bw,
        lookup "oui_vendor" row = Some oui /\
        lookup "ssid" row = Some (PStr ssid) /\
        lookup "entropy_penalty" row = Some ep /\ py_neg ep = Ok ne /\
        lookup "rsn_ies" row = Some rsn /\ py_iter rsn = Ok items /\
        lookup "bandwidth" row = Some (PStr bw).
Proof.
  split.
  - destruct (compute_scores row) as [s|e] eqn:H; [intros _ | discriminate].
    apply compute_scores_shape in H
      as (oui & ssid & ep & ne & rsn & items & multi & tot
          & Ho & Hs & He & Hne & Hr & Hit & Hm & _).
    apply multi_channel_cond_spec in Hm as (bw & Hbw & _).
    exists oui, ssid, ep, ne, rsn, items, bw. auto 10.
  - intros (oui & ssid & ep & ne & rsn & items & bw
            & Ho & Hs & He & Hne & Hr & Hit & Hb).
    destruct (compute_scores_total row oui ep rsn ssid bw ne items
                Ho Hs He Hne Hr Hit Hb) as [s ->].
    reflexivity.
Qed.

(** X19: a table of scores has its six keys in a fixed order;
    [ouinomismatch] is 0 or 3, [multi_channel] 0 or 2, [timing_anomalie] 0
    or 3.  When the entropy penalty of the row is an integer that is not
    negative, as on every row of the normaliser, it plays no part in the
    total: [total_score] is the greatest of the three, one of 0, 2 and 3. *)
Theorem scores_are_in_range (row : dict pyval) (s : dict num) :
  compute_scores row = Ok s ->
  exists o m t tot,
    keys s = score_keys /\
    lookup "ouinomismatch" s = Some (NInt o) /\ (o = 0 \/ o = 3) /\
    lookup "multi_channel" s = Some (NInt m) /\ (m = 0 \/ m = 2) /\
    lookup "timing_anomalie" s = Some (NInt t) /\ (t = 0 \/ t = 3) /\
    lookup "total_score" s = Some tot /\
    (forall n, lookup "entropy_penalty" row = Some (PInt n) -> 0 <= n ->
               tot = NInt (Z.max o (Z.max m t)) /\
               (tot = NInt 0 \/ tot = NInt 2 \/ tot = NInt 3)).
Proof.
  intros H.
  apply compute_scores_shape in H
    as (oui & ssid & ep & ne & rsn & items & multi & tot
        & _ & _ & Hep & Hne & _ & _ & _ & Hmax & ->).
  exists (oui_score ssid), (multi_score multi), (timing_score row), tot.
  assert (Ho : oui_score ssid = 0 \/ oui_score ssid = 3)
    by (unfold oui_score; destruct (vendor_hit ssid); auto).
  assert (Hm : multi_score multi = 0 \/ multi_score multi = 2)
    by (unfold multi_score; destruct multi; auto).
  assert (Ht : timing_score row = 0 \/ timing_score row = 3)
    by (unfold timing_score; destruct (timing_ok row); auto).
  split; [reflexivity |].
  split; [reflexivity | split; [exact Ho |]].
  split; [reflexivity | split; [exact Hm |]].
  split; [reflexivity | split; [exact Ht |]].
  split; [reflexivity |].
  intros n Hn Hn0. rewrite Hn in Hep. injection Hep as <-.
  cbn [py_neg] in Hne. injection Hne as <-.
  apply py_max_table in Hmax as (_ & _ & _ & Hint); try lia.
  rewrite (Hint (- n) eq_refl).
  assert (E : Z.max (oui_score ssid)
                (Z.max 0 (Z.max (multi_score multi)
                            (Z.max (timing_score row) (- n))))
              = Z.max (oui_score ssid)
                  (Z.max (multi_score multi) (timing_score row))) by lia.
  rewrite E. split; [reflexivity |].
  destruct Ho as [-> | ->], Hm as [-> | ->], Ht as [-> | ->]; cbn; auto.
Qed.

End ScorerFacts.

(** ** The normaliser and the scorer together, and the run *)

Lemma combine_map_forall2 {A C D : Type} (f : A * C -> D) (R : A -> D -> Prop)
      (l : list A) (l' : list C) :
  List.length l' = List.length l ->
  (forall a c, R a (f (a, c))) ->
  Forall2 R l (map f (combine l l')).
Proof.
  intros Hlen Hf. revert l' Hlen; induction l as [|a l IH]; intros l' Hlen.
  - constructor.
  - destruct l' as [|c l']; [discriminate |].
    cbn [combine map]. constructor; [apply Hf | apply IH].
    cbn [List.length] in Hlen. lia.
Qed.

Lemma forall2_trans {A C D : Type} (R : A -> C -> Prop) (S : C -> D -> Prop)
      (l1 : list A) (l2 : list C) (l3 : list D) :
  Forall2 R l1 l2 -> Forall2 S l2 l3 ->
  Forall2 (fun a d => exists c, R a c /\ S c d) l1 l3.
Proof.
  intros H; revert l3; induction H as [|a c l1 l2 Hac H IH]; intros l3 H3.
  - inversion H3. constructor.
  - inversion H3 as [|? d ? l3' Hcd H3']; subst. constructor; eauto.
Qed.

Lemma forall2_in_left {A C : Type} (R : A -> C -> Prop)
      (l1 : list A) (l2 : list C) (a : A) :
  Forall2 R l1 l2 -> In a l1 -> exists c, In c l2 /\ R a c.
Proof.
  intros H; induction H as [|x c l1 l2 Hxc H IH]; intros Ha; [destruct Ha |].
  destruct Ha as [<-|Ha].
  - exists c. split; [now left | exact Hxc].
  - destruct (IH Ha) as [c' [Hc' Hr]]. exists c'. split; [now right | exact Hr].
Qed.

Lemma mapM_first_error {A C : Type} (f : A -> res C)
      (l1 l2 : list A) (a : A) (e : exn) :
  (forall x, In x l1 -> is_ok (f x) = true) ->
  f a = Raise e ->
  mapM f (l1 ++ a :: l2) = Raise e.
Proof.
  intros H Ha. induction l1 as [|x l1 IH]; cbn [app mapM].
  - now rewrite Ha.
  - destruct (f x) as [c|e'] eqn:Hx.
    + cbn [bind]. rewrite IH; [reflexivity |].
      intros y Hy. apply H. now right.
    + specialize (H x (or_introl eq_refl)). rewrite Hx in H. discriminate.
Qed.

Section RunFacts.
Context {B : Builtins}.

(** In a run that builds its table, the rows of the table follow the
    records: row by row, the normalised record with its date replaced. *)
Lemma table_follows_records (data : pyval) (df : list (dict pyval)) :
  to_datetime_keeps_length ->
  build_table data = Ok df ->
  exists records,
    py_iter data = Ok records /\
    Forall2 (fun raw row' =>
               exists row, normalize_row raw = Ok row /\
                           exists v, row' = dict_set "date" v row)
            records df /\
    (forall row', In row' df -> is_ok (compute_scores row') = true).
Proof.
  intros Hlen H.
  apply build_table_steps in H
    as (records & rows & dates & scores & Hit & Hrows & Hdates & -> & Hsc).
  exists records. split; [exact Hit |].
  assert (Hdf : data_frame rows columns = rows).
  { unfold data_frame. rewrite <- (map_id rows) at 2.
    apply map_ext_in. intros row Hin.
    destruct (mapM_ok_from _ _ _ Hrows row Hin) as [raw [_ Hraw]].
    apply (normalized_row_fits raw row Hraw). }
  rewrite Hdf in *. split.
  - apply (forall2_trans _ _ records rows).
    + apply mapM_forall2. exact Hrows.
    + unfold set_column. apply combine_map_forall2.
      * rewrite (Hlen _ _ Hdates). unfold column. apply length_map.
      * intros r v. exists v. reflexivity.
  - intros row' Hin.
    destruct (mapM_ok_in _ _ _ Hsc row' Hin) as [s [Hs _]].
    now rewrite Hs.
Qed.

(** X20: on the row of an accepted record the scorer returns a table
    exactly when the [ssid] of the record is a text; on any other [ssid] (a
    number, [null], a list) it raises. *)
Theorem normalised_row_is_scored_iff_ssid_is_text
        (d : dict pyval) (row : dict pyval) :
  normalize_row (PDict d) = Ok row ->
  (is_ok (compute_scores row) = true
   <-> exists t, lookup "ssid" d = Some (PStr t)).
Proof.
  intros H. pose proof H as H'.
  apply normalize_row_shape in H'
    as (d' & ie & beacon & b8 & ssid & all & first & rssi
        & Hd & _ & _ & _ & Hssid & _ & _ & _ & Hrow).
  injection Hd as <-.
  assert (Hs : lookup "ssid" row = Some ssid) by (subst row; reflexivity).
  split.
  - destruct (compute_scores row) as [s|e] eqn:Hc; [intros _ | discriminate].
    apply compute_scores_shape in Hc
      as (oui & t & ep & ne & rsn & items & multi & tot & _ & Ht & _).
    exists t. congruence.
  - intros [t Ht].
    assert (Hst : lookup "ssid" row = Some (PStr t)) by congruence.
    destruct (normalized_row_is_scored _ _ _ H Hst) as [s ->]. reflexivity.
Qed.

(** X21: for an accepted record, the timing score of its row is 0 exactly
    when the record has a [beacon_int] whose float passes the range test; a
    record without [beacon_int] gets 3. *)
Theorem timing_score_of_a_record
        (d : dict pyval) (row : dict pyval) (s : dict num) :
  normalize_row (PDict d) = Ok row ->
  compute_scores row = Ok s ->
  (lookup "timing_anomalie" s = Some (NInt 0)
   <-> exists v f, lookup "beacon_int" d = Some v /\ py_float v = Ok f /\
                   in_range f = true) /\
  (lookup "beacon_int" d = None ->
   lookup "timing_anomalie" s = Some (NInt 3)).
Proof.
  intros H Hc.
  apply normalize_row_shape in H
    as (d' & ie & beacon & b8 & ssid & all & first & rssi
        & Hd & _ & Hbeacon & _ & _ & _ & _ & _ & Hrow).
  injection Hd as <-.
  assert (Hb : lookup "beacon_int" row = Some (PFloat beacon))
    by (subst row; reflexivity).
  apply compute_scores_shape in Hc
    as (oui & t & ep & ne & rsn & items & multi & tot
        & _ & _ & _ & _ & _ & _ & _ & _ & ->).
  cbn [score_table lookup String.eqb Ascii.eqb Bool.eqb].
  unfold timing_score.
  assert (Hok : timing_ok row = in_range beacon).
  { unfold timing_ok, getitem, in_range. rewrite Hb. cbn [bind py_float].
    destruct (SFleb ten beacon); reflexivity. }
  rewrite Hok. unfold has_key, getitem in Hbeacon.
  destruct (lookup "beacon_int" d) as [v|] eqn:Ev; cbn [bind] in Hbeacon.
  - split; [| discriminate]. split.
    + destruct (in_range beacon) eqn:Hr; [intros _ | discriminate].
      exists v, beacon. auto.
    + intros (v' & f & Hv' & Hf & Hr). injection Hv' as <-.
      rewrite Hbeacon in Hf. injection Hf as <-. now rewrite Hr.
  - injection Hbeacon as <-. split; [| reflexivity].
    split; [discriminate |]. intros (v' & f & Hv' & _). discriminate.
Qed.



(** X24: a record whose [ssid] is not a text stops the run: if the
    normaliser accepts it (and the dates parse), the scorer refuses its row;
    the output file is left as it was. *)
Theorem non_text_ssid_stops_the_run
        (data : pyval) (recs : list pyval) (d : dict pyval) (v : pyval)
        (out : option string) :
  to_datetime_keeps_length ->
  py_iter data = Ok recs ->
  In (PDict d) recs ->
  lookup "ssid" d = Some v ->
  (forall t, v <> PStr t) ->
  exists e, main data out = (Raise e, out).
Proof.
  intros Hlen Hit Hin Hv Hnt. unfold main.
  destruct (build_table data) as [df|e] eqn:Hb; [exfalso | eauto].
  destruct (table_follows_records data df Hlen Hb) as (records & Hit' & Hf & Hsc).
  rewrite Hit in Hit'. injection Hit' as <-.
  destruct (forall2_in_left _ _ _ _ Hf Hin)
    as (row' & Hrow' & row & Hn & v0 & ->).
  specialize (Hsc _ Hrow').
  destruct (compute_scores (dict_set "date" v0 row)) as [s|] eqn:Hc;
    [| discriminate].
  apply compute_scores_shape in Hc
    as (oui & t & ep & ne & rsn & items & multi & tot & _ & Ht & _).
  rewrite lookup_dict_set_other in Ht by discriminate.
  apply normalize_row_shape in Hn
    as (d' & ie & beacon & b8 & ssid & all & first & rssi
        & Hd & _ & _ & _ & Hssid & _ & _ & _ & ->).
  injection Hd as <-.
  cbn [lookup String.eqb Ascii.eqb Bool.eqb] in Ht.
  apply (Hnt t). congruence.
Qed.

(** X25: the run stops at the first record that the normaliser refuses,
    with the exception of that record; the records after it are not looked
    at, and the output file is left as it was. *)
Theorem run_stops_at_first_refused_record
        (data : pyval) (before after : list pyval) (r : pyval) (e : exn)
        (out : option string) :
  py_iter data = Ok (before ++ r :: after)%list ->
  (forall x, In x before -> is_ok (normalize_row x) = true) ->
  normalize_row r = Raise e ->
  main data out = (Raise e, out).
Proof.
  intros Hit Hb Hr. unfold main, build_table. rewrite Hit. cbn [bind].
  rewrite (mapM_first_error normalize_row before after r e Hb Hr).
  reflexivity.
Qed.

(** X26: the input has to be a list of records.  A JSON object with at
    least one key, or a text that is not empty, makes the loop visit texts,
    and the first [row.get] raises [AttributeError]; [null], a truth value or
    a number cannot be visited at all ([TypeError]).  In each case the output
    file is left as it was. *)
Theorem input_must_be_a_list (out : option string) :
  (forall k v d, main (PDict ((k, v) :: d)) out = (Raise AttributeError, out)) /\
  (forall c s, main (PStr (String c s)) out = (Raise AttributeError, out)) /\
  main PNone out = (Raise TypeError, out) /\
  (forall b, main (PBool b) out = (Raise TypeError, out)) /\
  (forall z, main (PInt z) out = (Raise TypeError, out)) /\
  (forall f, main (PFloat f) out = (Raise TypeError, out)).
Proof.
  repeat split; intros; reflexivity.
Qed.

(** X27: on an input with no record (an empty list, and likewise an empty
    object or text) no record is normalised or scored, and the run writes the
    file for the empty table, provided the empty [date] column parses. *)
Theorem empty_input_writes_empty_table
        (data : pyval) (dates : list pyval) (out : option string) :
  py_iter data = Ok [] ->
  to_datetime [] = Ok dates ->
  main data out = (Ok tt, Some (to_csv [])).
Proof.
  intros Hit Hd. unfold main, build_table, write_csv. rewrite Hit.
  cbn [bind mapM data_frame map column]. rewrite Hd. reflexivity.
Qed.

End RunFacts.

(** ** The further statements at concrete inputs *)

Lemma doubled_trailing_comma_survives_witness :
  closes "}" = true /\
  strip_trailing_commas ",,}" = String "," (strip_trailing_commas "}") /\
  has_trailing_comma (strip_trailing_commas ",,}").
Proof.
  split; [reflexivity |].
  apply (doubled_trailing_comma_survives "}"). reflexivity.
Defined.




Lemma display_columns_are_cut_witness :
  @normalize_row eval_builtins example_record = Ok example_row /\
  exists d b n t,
    example_record = PDict d /\
    lookup "bssid" example_row = Some b /\ py_len b = Ok n /\ n <= 8 /\
    (forall mac, lookup "mac_addr" d = Some (PStr mac) ->
                 exists p rest, b = PStr p /\ mac = (p ++ rest)%string) /\
    lookup "rsn_ies" example_row = Some (PStr t) /\
    (String.length t <= 60)%nat.
Proof.
  split; [reflexivity |].
  apply (@display_columns_are_cut eval_builtins example_record example_row).
  reflexivity.
Defined.

Lemma unread_fields_are_ignored_witness :
  agree_on fields_read example_fields example_fields_with_flag /\
  @normalize_row eval_builtins (PDict example_fields)
  = @normalize_row eval_builtins (PDict example_fields_with_flag).
Proof.
  assert (H : agree_on fields_read example_fields example_fields_with_flag).
  { intros k Hk. cbn [fields_read In] in Hk.
    repeat (destruct Hk as [<-|Hk]; [reflexivity |]). destruct Hk. }
  split; [exact H |].
  apply (@unread_fields_are_ignored eval_builtins _ _ H).
Defined.

Lemma missing_optional_fields_get_defaults_witness :
  lookup "ssid" bare_fields = Some (PStr "FreeWifi") /\
  lookup "ie_info" bare_fields = Some (PDict [("RSN", PList [])]) /\
  (forall k, In k optional_fields -> lookup k bare_fields = None) /\
  @normalize_row eval_builtins (PDict bare_fields)
  = Ok (@default_row eval_builtins (PStr "FreeWifi") [("RSN", PList [])]).
Proof.
  assert (H : forall k, In k optional_fields -> lookup k bare_fields = None).
  { intros k Hk. cbn [optional_fields In] in Hk.
    repeat (destruct Hk as [<-|Hk]; [reflexivity |]). destruct Hk. }
  split; [reflexivity |]. split; [reflexivity |]. split; [exact H |].
  apply (@missing_optional_fields_get_defaults eval_builtins bare_fields
           _ _ eq_refl eq_refl H).
Defined.

Lemma scores_are_in_range_witness :
  @compute_scores eval_builtins example_row = Ok example_scores /\
  exists o m t tot,
    keys example_scores = score_keys /\
    lookup "ouinomismatch" example_scores = Some (NInt o) /\ (o = 0 \/ o = 3) /\
    lookup "multi_channel" example_scores = Some (NInt m) /\ (m = 0 \/ m = 2) /\
    lookup "timing_anomalie" example_scores = Some (NInt t) /\ (t = 0 \/ t = 3) /\
    lookup "total_score" example_scores = Some tot /\
    (forall n, lookup "entropy_penalty" example_row = Some (PInt n) -> 0 <= n ->
               tot = NInt (Z.max o (Z.max m t)) /\
               (tot = NInt 0 \/ tot = NInt 2 \/ tot = NInt 3)).
Proof.
  split; [reflexivity |].
  apply (@scores_are_in_range eval_builtins example_row). reflexivity.
Defined.

Lemma normalised_row_is_scored_iff_ssid_is_text_witness :
  @normalize_row eval_builtins (PDict numeric_ssid_fields)
  = Ok (@default_row eval_builtins (PInt 5) []) /\
  (is_ok (@compute_scores eval_builtins (@default_row eval_builtins (PInt 5) []))
   = true
   <-> exists t, lookup "ssid" numeric_ssid_fields = Some (PStr t)).
Proof.
  split; [reflexivity |].
  apply (@normalised_row_is_scored_iff_ssid_is_text eval_builtins).
  reflexivity.
Defined.

Lemma timing_score_of_a_record_witness :
  @normalize_row eval_builtins (PDict example_fields) = Ok example_row /\
  @compute_scores eval_builtins example_row = Ok example_scores /\
  (lookup "timing_anomalie" example_scores = Some (NInt 0)
   <-> exists v f, lookup "beacon_int" example_fields = Some v /\
                   @py_float eval_builtins v = Ok f /\ in_range f = true) /\
  (lookup "beacon_int" example_fields = None ->
   lookup "timing_anomalie" example_scores = Some (NInt 3)).
Proof.
  split; [reflexivity |]. split; [reflexivity |].
  apply (@timing_score_of_a_record eval_builtins example_fields example_row);
    reflexivity.
Defined.


Lemma eval_to_datetime_keeps_length : @to_datetime_keeps_length eval_builtins.
Proof. intros l dates H. cbn in H. now injection H as <-. Qed.


Lemma non_text_ssid_stops_the_run_witness :
  @to_datetime_keeps_length eval_builtins /\
  py_iter (PList [example_record; PDict numeric_ssid_fields])
  = Ok [example_record; PDict numeric_ssid_fields] /\
  In (PDict numeric_ssid_fields) [example_record; PDict numeric_ssid_fields] /\
  lookup "ssid" numeric_ssid_fields = Some (PInt 5) /\
  (forall t, PInt 5 <> PStr t) /\
  exists e,
    @main eval_builtins (PList [example_record; PDict numeric_ssid_fields]) None
    = (Raise e, None).
Proof.
  assert (Hin : In (PDict numeric_ssid_fields)
                   [example_record; PDict numeric_ssid_fields])
    by (right; left; reflexivity).
  assert (Hnt : forall t, PInt 5 <> PStr t) by discriminate.
  split; [exact eval_to_datetime_keeps_length |]. split; [reflexivity |].
  split; [exact Hin |]. split; [reflexivity |]. split; [exact Hnt |].
  apply (@non_text_ssid_stops_the_run eval_builtins
           (PList [example_record; PDict numeric_ssid_fields])
           [example_record; PDict numeric_ssid_fields]
           numeric_ssid_fields (PInt 5) None
           eval_to_datetime_keeps_length eq_refl Hin eq_refl Hnt).
Defined.

Lemma run_stops_at_first_refused_record_witness :
  py_iter (PList [example_record; PInt 7; PNone])
  = Ok ([example_record] ++ PInt 7 :: [PNone])%list /\
  (forall x, In x [example_record] ->
             is_ok (@normalize_row eval_builtins x) = true) /\
  @normalize_row eval_builtins (PInt 7) = Raise AttributeError /\
  @main eval_builtins (PList [example_record; PInt 7; PNone]) None
  = (Raise AttributeError, None).
Proof.
  assert (Hb : forall x, In x [example_record] ->
                         is_ok (@normalize_row eval_builtins x) = true).
  { intros x [<-|[]]. reflexivity. }
  split; [reflexivity |]. split; [exact Hb |]. split; [reflexivity |].
  apply (@run_stops_at_first_refused_record eval_builtins
           (PList [example_record; PInt 7; PNone])
           [example_record] [PNone] (PInt 7) AttributeError None
           eq_refl Hb eq_refl).
Defined.

Lemma empty_input_writes_empty_table_witness :
  py_iter (PDict []) = Ok [] /\
  @to_datetime eval_builtins [] = Ok [] /\
  @main eval_builtins (PDict []) (Some "old"%string)
  = (Ok tt, Some (@to_csv eval_builtins [])).
Proof.
  split; [reflexivity |]. split; [reflexivity |].
  apply (@empty_input_writes_empty_table eval_builtins (PDict []) []
           (Some "old"%string)); reflexivity.
Defined.
